(** * The tool registry of analyzer_tools (registry.py)

    A shallow embedding of [analyzer_tools/registry.py]: the [ToolInfo]
    class, the two module-level catalogs [TOOLS] and [WORKFLOWS], and the
    four query functions [get_all_tools], [get_tool],
    [get_tools_by_data_type] and [get_workflows], and the overview printer
    [print_tool_overview].

    Python dictionaries keep their keys in insertion order, and several
    properties below are about that order, so a dictionary is an
    association list whose keys are pairwise distinct; the dictionary
    operations are written so that they maintain this. The query functions
    read the module globals at call time, so they are computations over the
    module's global bindings that may return a value or raise. *)

From Stdlib Require Import String.
From stdpp Require Import base list strings.

Local Open Scope string_scope.
Local Open Scope list_scope.

(** ** What an evaluation gives: a value, or an exception *)

Inductive exn : Type :=
| KeyError (key : string)
| AttributeError (attr : string)
| UnicodeEncodeError (text : string).

Inductive outcome (A : Type) : Type :=
| Returns (a : A)
| Raises (e : exn).

Arguments Returns {A} a.
Arguments Raises {A} e.

(** ** Python dictionaries with string keys *)

Module PyDict.

(** Items in insertion order. *)
Abbreviation dict V := (list (string * V)).

Section Dict.
Context {V : Type}.

Definition dict_empty : dict V := [].

(** [d.items()], [d.keys()], [d.values()], [len(d)]. *)
Definition dict_items (d : dict V) : list (string * V) := d.
Definition dict_keys (d : dict V) : list string := d.*1.
Definition dict_values (d : dict V) : list V := d.*2.
Definition dict_len (d : dict V) : nat := length d.

(** [d.get(k)]: the value bound to [k], or Python's [None]. *)
Fixpoint dict_get (k : string) (d : dict V) : option V :=
  match d with
  | [] => None
  | (k', v) :: d' => if String.eqb k' k then Some v else dict_get k d'
  end.

(** [d[k]]: the value bound to [k]; raises [KeyError] when there is none. *)
Definition dict_getitem (k : string) (d : dict V) : outcome V :=
  match dict_get k d with
  | Some v => Returns v
  | None => Raises (KeyError k)
  end.

(** [d[k] = v]: an existing key keeps its position and takes the new
    value, a new key goes to the end. *)
Fixpoint dict_set (k : string) (v : V) (d : dict V) : dict V :=
  match d with
  | [] => [(k, v)]
  | (k', v') :: d' =>
      if String.eqb k' k then (k', v) :: d' else (k', v') :: dict_set k v d'
  end.

(** A display [{k1: v1, ..., kn: vn}] stores its pairs from left to
    right. *)
Definition dict_literal (kvs : list (string * V)) : dict V :=
  fold_left (fun d kv => dict_set kv.1 kv.2 d) kvs dict_empty.

(** A comprehension [{k: v for k, v in d.items() if cond}]. *)
Definition dict_comprehension (cond : string -> V -> bool) (d : dict V) : dict V :=
  fold_left (fun acc kv => if cond kv.1 kv.2 then dict_set kv.1 kv.2 acc else acc)
            (dict_items d) dict_empty.

(** The representation invariant: no key occurs twice. *)
Definition dict_wf (d : dict V) : Prop := NoDup (dict_keys d).
End Dict.

End PyDict.

Import PyDict.

(** ** The ToolInfo class *)

Record ToolInfo : Type := mkToolInfo {
  name : string;
  module : string;
  description : string;
  usage : string;
  examples : list string;
  data_type : string  (* "partial", "combined", or "both" *)
}.

(** [ToolInfo.__init__]; [data_type] is a keyword argument that defaults
    to ["both"]. *)
Definition ToolInfo_init (name module description usage : string)
    (examples : list string) (data_type : option string) : ToolInfo :=
  {| name := name;
     module := module;
     description := description;
     usage := usage;
     examples := examples;
     data_type := default "both" data_type |}.

(** ** Registry of all available tools *)

(** The five [ToolInfo(...)] values of the [TOOLS] display, in the order in
    which it lists them. *)

Definition partial_data_assessor_info : ToolInfo :=
  ToolInfo_init
    "Partial Data Assessor"
    "analyzer_tools.partial_data_assessor"
    "Assess quality of partial reflectometry data by analyzing overlap regions between data parts. Calculates chi-squared metrics and generates visualization reports."
    "python analyzer_tools/partial_data_assessor.py <set_id>"
    [ "python analyzer_tools/partial_data_assessor.py 218281";
      "python analyzer_tools/partial_data_assessor.py 218328" ]
    (Some "partial").

Definition run_fit_info : ToolInfo :=
  ToolInfo_init
    "Reflectivity Fit Runner"
    "analyzer_tools.run_fit"
    "Run reflectivity fits on combined data using specified models. Performs least-squares fitting and generates fit reports with uncertainty analysis."
    "python analyzer_tools/run_fit.py <data_id> <model_name>"
    [ "python analyzer_tools/run_fit.py 218281 cu_thf";
      "python analyzer_tools/run_fit.py 218328 cu_thf_temp" ]
    (Some "combined").

Definition result_assessor_info : ToolInfo :=
  ToolInfo_init
    "Fit Result Assessor"
    "analyzer_tools.result_assessor"
    "Assess quality of fitting results by analyzing chi-squared values, parameter uncertainties, and generating comparison plots."
    "python analyzer_tools/result_assessor.py <data_id> <model_name>"
    [ "python analyzer_tools/result_assessor.py 218281 cu_thf";
      "python analyzer_tools/result_assessor.py 218328 cu_thf_temp" ]
    (Some "combined").

Definition create_model_script_info : ToolInfo :=
  ToolInfo_init
    "Model Script Creator"
    "analyzer_tools.create_model_script"
    "Generate fitting scripts by combining model definitions with fitting commands. Useful for batch processing and reproducible analysis."
    "python analyzer_tools/create_model_script.py <model_name> <data_file> [--model_dir DIR] [--output_dir DIR]"
    [ "python analyzer_tools/create_model_script.py cu_thf data.txt";
      "python analyzer_tools/create_model_script.py cu_thf data.txt --output_dir custom_output" ]
    (Some "combined").

Definition create_temporary_model_info : ToolInfo :=
  ToolInfo_init
    "Temporary Model Creator"
    "analyzer_tools.create_temporary_model"
    "Create temporary models with adjusted parameter ranges for sensitivity analysis and parameter exploration."
    "python analyzer_tools/create_temporary_model.py <base_model> <new_model> --adjust <param> <min>,<max>"
    [ "python analyzer_tools/create_temporary_model.py cu_thf cu_thf_temp --adjust Cu thickness 500,800";
      "python analyzer_tools/create_temporary_model.py cu_thf cu_thf_wide --adjust Cu thickness 300,1000" ]
    (Some "both").

Definition TOOLS_display : list (string * ToolInfo) :=
  [ ("partial_data_assessor", partial_data_assessor_info);
    ("run_fit", run_fit_info);
    ("result_assessor", result_assessor_info);
    ("create_model_script", create_model_script_info);
    ("create_temporary_model", create_temporary_model_info) ].

Definition TOOLS : dict ToolInfo := dict_literal TOOLS_display.

(** ** Workflow definitions

    A workflow is itself a dictionary, with keys ["name"], ["description"],
    ["steps"] and ["tools"]; its values are strings or lists of strings. *)

Inductive pyval : Type :=
| PStr (s : string)
| PList (l : list string).

(** The three workflow dictionaries of the [WORKFLOWS] display, in the order
    in which it lists them. *)

Definition partial_data_quality_workflow : dict pyval :=
  dict_literal
    [ ("name", PStr "Partial Data Quality Assessment");
      ("description", PStr "Assess the quality of partial reflectometry data before combining");
      ("steps", PList
         [ "1. Use partial_data_assessor to check overlap quality";
           "2. Review chi-squared metrics (< 2.0 is typically good)";
           "3. Examine overlap plots for systematic deviations";
           "4. Identify problematic datasets for further investigation" ]);
      ("tools", PList [ "partial_data_assessor" ]) ].

Definition standard_fitting_workflow : dict pyval :=
  dict_literal
    [ ("name", PStr "Standard Reflectivity Fitting");
      ("description", PStr "Complete workflow for fitting reflectivity data");
      ("steps", PList
         [ "1. Use run_fit to perform initial fitting";
           "2. Use result_assessor to evaluate fit quality";
           "3. If poor fit, use create_temporary_model to adjust parameters";
           "4. Re-run fitting with adjusted model";
           "5. Generate final reports" ]);
      ("tools", PList [ "run_fit"; "result_assessor"; "create_temporary_model" ]) ].

Definition parameter_exploration_workflow : dict pyval :=
  dict_literal
    [ ("name", PStr "Parameter Sensitivity Analysis");
      ("description", PStr "Explore parameter sensitivity and uncertainty");
      ("steps", PList
         [ "1. Start with standard fitting workflow";
           "2. Use create_temporary_model to create variants with different parameter ranges";
           "3. Run fits on multiple parameter sets";
           "4. Use result_assessor to compare results";
           "5. Identify sensitive parameters and optimal ranges" ]);
      ("tools", PList [ "run_fit"; "result_assessor"; "create_temporary_model" ]) ].

Definition WORKFLOWS_display : list (string * dict pyval) :=
  [ ("partial_data_quality", partial_data_quality_workflow);
    ("standard_fitting", standard_fitting_workflow);
    ("parameter_exploration", parameter_exploration_workflow) ].

Definition WORKFLOWS : dict (dict pyval) := dict_literal WORKFLOWS_display.

(** ** Calls into the module

    A call runs against the current bindings of the module's two global
    variables, returns a value or raises, and leaves the bindings it found
    or changed behind. *)
Record globals : Type := mkGlobals {
  g_TOOLS : dict ToolInfo;
  g_WORKFLOWS : dict (dict pyval)
}.

(** The bindings once the module body has been executed. *)
Definition module_globals : globals :=
  {| g_TOOLS := TOOLS; g_WORKFLOWS := WORKFLOWS |}.

Definition Py (A : Type) : Type := globals -> outcome A * globals.

Definition ret {A} (a : A) : Py A := fun g => (Returns a, g).

Definition raise {A} (e : exn) : Py A := fun g => (Raises e, g).

Definition bind {A B} (c : Py A) (k : A -> Py B) : Py B :=
  fun g =>
    match c g with
    | (Returns a, g') => k a g'
    | (Raises e, g') => (Raises e, g')
    end.

Notation "x <- c ;; k" := (bind c (fun x => k))
  (at level 100, c at next level, right associativity).

(** Reading a global variable. *)
Definition load_TOOLS : Py (dict ToolInfo) := fun g => (Returns (g_TOOLS g), g).
Definition load_WORKFLOWS : Py (dict (dict pyval)) :=
  fun g => (Returns (g_WORKFLOWS g), g).

(** The value a call returns, and the bindings after it. *)
Definition result_of {A} (c : Py A) (g : globals) : outcome A := (c g).1.
Definition globals_after {A} (c : Py A) (g : globals) : globals := (c g).2.

(** ** The query functions *)

(** Get all available tools. *)
Definition get_all_tools : Py (dict ToolInfo) :=
  tools <- load_TOOLS ;;
  ret tools.

(** Get information about a specific tool. *)
Definition get_tool (tool_name : string) : Py (option ToolInfo) :=
  tools <- load_TOOLS ;;
  ret (dict_get tool_name tools).

(** The condition of the comprehension in [get_tools_by_data_type]. *)
Definition works_with (data_type_arg : string) (tool : ToolInfo) : bool :=
  String.eqb (data_type tool) data_type_arg || String.eqb (data_type tool) "both".

(** Get tools that work with a specific data type. *)
Definition get_tools_by_data_type (data_type_arg : string) : Py (dict ToolInfo) :=
  tools <- load_TOOLS ;;
  ret (dict_comprehension (fun name tool => works_with data_type_arg tool) tools).

(** Get all available workflows. *)
Definition get_workflows : Py (dict (dict pyval)) :=
  workflows <- load_WORKFLOWS ;;
  ret workflows.

(** ** The names the module binds

    In the order in which the module body binds them: the two imported
    typing names, the class, the two catalogs and the five functions
    ([print_tool_overview] only prints what the catalogs hold). Beside
    these the module object has the attributes that the interpreter sets on
    every module ([__name__], [__doc__], [__file__] and the like); they are
    no part of this file, and their names begin with two underscores. *)

Inductive binding : Type :=
| Imported
| Class
| Data
| Function
| Special.

Definition module_bindings : dict binding :=
  dict_literal
    [ ("Dict", Imported);
      ("List", Imported);
      ("ToolInfo", Class);
      ("TOOLS", Data);
      ("WORKFLOWS", Data);
      ("get_all_tools", Function);
      ("get_tool", Function);
      ("get_tools_by_data_type", Function);
      ("get_workflows", Function);
      ("print_tool_overview", Function) ].

(** A name of the kind the interpreter reserves for itself. *)
Definition is_special (attr : string) : bool := String.prefix "__" attr.

(** [registry.attr]: attribute access on the module object. A name that
    the module body binds gives its binding; a special name gives what the
    interpreter set, if it set that name ([interpreter_sets] tells); any
    other name raises [AttributeError]. *)
Definition module_getattr (interpreter_sets : string -> bool) (attr : string)
    : outcome binding :=
  match dict_get attr module_bindings with
  | Some b => Returns b
  | None =>
      if is_special attr && interpreter_sets attr then Returns Special
      else Raises (AttributeError attr)
  end.

Definition is_function (b : binding) : bool :=
  match b with
  | Function => true
  | _ => false
  end.

(** The functions the module offers. *)
Definition module_functions : list string :=
  (filter (fun kv => is_function kv.2) (dict_items module_bindings)).*1.

(** ** The overview printer

    [print_tool_overview] reads three things from outside the module: the
    directory above the module's own ([parent_dir], which [os.path] computes
    from [__file__]), the import path [sys.path], which it may extend, and
    the module [analyzer_tools.config_utils], whose
    [get_data_organization_info] it calls. It writes to standard output.

    So a call of it runs in a world made of the module's globals, [sys.path]
    and standard output. Of standard output the world keeps two things.
    [w_stdout] is the list of the arguments of the [print] calls that went
    through, in order; it is a list of calls, not of lines, since an
    argument may hold line feeds (six [print] statements of
    [print_tool_overview] begin with one), and [stdout_text] gives the text
    that these calls wrote. [w_stdout_error] is how the stream fails: given
    what went through so far and the string to write next, the exception
    that writing it raises, if any. A stream whose encoding cannot encode a
    character of the string raises [UnicodeEncodeError], and writes nothing
    of that string. *)

Record world : Type := mkWorld {
  w_globals : globals;
  w_sys_path : list string;
  w_stdout : list string;
  w_stdout_error : list string -> string -> option exn
}.

Definition IO (A : Type) : Type := world -> outcome A * world.

Definition io_ret {A} (a : A) : IO A := fun w => (Returns a, w).

Definition io_raise {A} (e : exn) : IO A := fun w => (Raises e, w).

Definition io_bind {A B} (c : IO A) (k : A -> IO B) : IO B :=
  fun w =>
    match c w with
    | (Returns a, w') => k a w'
    | (Raises e, w') => (Raises e, w')
    end.

Notation "x <~ c ;; k" := (io_bind c (fun x => k))
  (at level 100, c at next level, right associativity).

(** A computation over the globals, run in the world. *)
Definition io_py {A} (c : Py A) : IO A :=
  fun w =>
    let r := c (w_globals w) in
    (r.1, {| w_globals := r.2; w_sys_path := w_sys_path w; w_stdout := w_stdout w;
             w_stdout_error := w_stdout_error w |}).

(** An expression that may raise, such as [d[k]]. *)
Definition io_eval {A} (o : outcome A) : IO A := fun w => (o, w).

(** [print(s)]: writes [s] and a line feed to standard output, or raises
    what the stream raises on [s] and writes nothing. *)
Definition print (s : string) : IO unit :=
  fun w =>
    match w_stdout_error w (w_stdout w) s with
    | None =>
        (Returns tt,
         {| w_globals := w_globals w; w_sys_path := w_sys_path w;
            w_stdout := w_stdout w ++ [s];
            w_stdout_error := w_stdout_error w |})
    | Some e => (Raises e, w)
    end.

Definition get_sys_path : IO (list string) := fun w => (Returns (w_sys_path w), w).

(** [sys.path.insert(0, p)] *)
Definition sys_path_insert0 (p : string) : IO unit :=
  fun w =>
    (Returns tt,
     {| w_globals := w_globals w; w_sys_path := p :: w_sys_path w;
        w_stdout := w_stdout w; w_stdout_error := w_stdout_error w |}).

(** [for x in l: body] *)
Fixpoint for_each {X} (l : list X) (body : X -> IO unit) : IO unit :=
  match l with
  | [] => io_ret tt
  | x :: l' => _ <~ body x ;; for_each l' body
  end.

(** The line feed, and [s * n] on strings. *)
Definition nl : string := String (Ascii.ascii_of_nat 10) "".

(** The text that [print] calls with these arguments wrote: each argument,
    followed by a line feed. *)
Definition stdout_text (printed : list string) : string :=
  String.concat "" ((fun s => s +:+ nl) <$> printed).

(** The number of line feeds in a text, which is the number of its lines
    when it ends with one. *)
Definition line_count (text : string) : nat :=
  length (filter (fun c => c = Ascii.ascii_of_nat 10) (list_ascii_of_string text)).

Fixpoint str_mul (s : string) (n : nat) : string :=
  match n with
  | O => ""
  | S n' => s +:+ str_mul s n'
  end.

(** What importing [analyzer_tools.config_utils] and calling its
    [get_data_organization_info] comes to: an [ImportError], the mapping
    the call returns, or another exception. *)
Inductive config_load : Type :=
| ImportFails
| Loaded (data_org : dict string)
| LoadRaises (e : exn).

(** The defaults of the [except ImportError] branch. *)
Definition default_data_org : dict string :=
  dict_literal
    [ ("combined_data_dir", "data/combined");
      ("partial_data_dir", "data/partial");
      ("reports_dir", "reports");
      ("combined_data_template", "REFL_{set_id}_combined_data_auto.txt");
      ("models_dir", "models") ].

(** The [try] statement at the head of [print_tool_overview]. *)
Definition load_data_org (parent_dir : string) (config : config_load)
    : IO (dict string) :=
  path <~ get_sys_path ;;
  _ <~ (if bool_decide (parent_dir ∈ path) then io_ret tt
        else sys_path_insert0 parent_dir) ;;
  match config with
  | Loaded data_org => io_ret data_org
  | ImportFails => io_ret default_data_org
  | LoadRaises e => io_raise e
  end.

Section PrintToolOverview.

(** Two built-ins of Python that the f-strings of the workflow loop reach
    when a workflow holds a list where a string is expected, or a string
    where a list is: [str] of a list of strings, and the characters of a
    string. *)
Variable str_of_list : list string -> string.
Variable chars_of : string -> list string.

(** [f"{v}"] *)
Definition format_value (v : pyval) : string :=
  match v with
  | PStr s => s
  | PList l => str_of_list l
  end.

(** [sep.join(v)] *)
Definition join (sep : string) (v : pyval) : string :=
  match v with
  | PStr s => String.concat sep (chars_of s)
  | PList l => String.concat sep l
  end.

(** The body of the loop over [TOOLS.items()]. *)
Definition print_tool (item : string * ToolInfo) : IO unit :=
  let tool := item.2 in
  _ <~ print (nl +:+ "🔧 " +:+ name tool) ;;
  _ <~ print ("   " +:+ description tool) ;;
  _ <~ print ("   Data type: " +:+ data_type tool) ;;
  _ <~ print ("   Usage: " +:+ usage tool) ;;
  match examples tool with
  | [] => io_ret tt
  | example0 :: _ => print ("   Example: " +:+ example0)
  end.

(** The body of the loop over [WORKFLOWS.items()]. *)
Definition print_workflow (item : string * dict pyval) : IO unit :=
  let workflow := item.2 in
  wname <~ io_eval (dict_getitem "name" workflow) ;;
  _ <~ print (nl +:+ "🔄 " +:+ format_value wname) ;;
  wdescription <~ io_eval (dict_getitem "description" workflow) ;;
  _ <~ print ("   " +:+ format_value wdescription) ;;
  wtools <~ io_eval (dict_getitem "tools" workflow) ;;
  print ("   Tools used: " +:+ join ", " wtools).

(** The four [print] calls on where the data lives. *)
Definition print_data_organization (data_org : dict string) : IO unit :=
  partial_data_dir <~ io_eval (dict_getitem "partial_data_dir" data_org) ;;
  _ <~ print ("   • Partial data: " +:+ partial_data_dir
              +:+ "/ (REFL_<set_ID>_<part_ID>_<run_ID>_partial.txt)") ;;
  combined_data_dir <~ io_eval (dict_getitem "combined_data_dir" data_org) ;;
  combined_data_template <~ io_eval (dict_getitem "combined_data_template" data_org) ;;
  _ <~ print ("   • Combined data: " +:+ combined_data_dir
              +:+ "/ (" +:+ combined_data_template +:+ ")") ;;
  models_dir <~ io_eval (dict_getitem "models_dir" data_org) ;;
  _ <~ print ("   • Models: " +:+ models_dir
              +:+ "/ (Python files with reflectivity models)") ;;
  reports_dir <~ io_eval (dict_getitem "reports_dir" data_org) ;;
  print ("   • Reports: " +:+ reports_dir
         +:+ "/ (Generated analysis reports and plots)").

(** Print a comprehensive overview of all tools. *)
Definition print_tool_overview (parent_dir : string) (config : config_load)
    : IO unit :=
  data_org <~ load_data_org parent_dir config ;;
  _ <~ print (str_mul "=" 70) ;;
  _ <~ print "NEUTRON REFLECTOMETRY DATA ANALYSIS TOOLS" ;;
  _ <~ print (str_mul "=" 70) ;;
  _ <~ print "" ;;
  _ <~ print "📊 AVAILABLE ANALYSIS TOOLS:" ;;
  _ <~ print (str_mul "-" 40) ;;
  tools <~ io_py load_TOOLS ;;
  _ <~ for_each (dict_items tools) print_tool ;;
  _ <~ print (nl +:+ "📋 ANALYSIS WORKFLOWS:") ;;
  _ <~ print (str_mul "-" 40) ;;
  workflows <~ io_py load_WORKFLOWS ;;
  _ <~ for_each (dict_items workflows) print_workflow ;;
  _ <~ print (nl +:+ "📁 DATA ORGANIZATION:") ;;
  _ <~ print (str_mul "-" 40) ;;
  _ <~ print_data_organization data_org ;;
  _ <~ print (nl +:+ "🚀 QUICK START:") ;;
  _ <~ print (str_mul "-" 40) ;;
  _ <~ print "   1. For partial data quality: python analyzer_tools/partial_data_assessor.py 218281" ;;
  _ <~ print "   2. For reflectivity fitting: python analyzer_tools/run_fit.py 218281 cu_thf" ;;
  _ <~ print "   3. For result assessment: python analyzer_tools/result_assessor.py 218281 cu_thf" ;;
  print (nl +:+ str_mul "=" 70).

End PrintToolOverview.

(** A standard output that takes every string, as one with the encoding
    UTF-8 does, and one with the encoding ASCII, which raises on a string
    with a character beyond the first 128. *)
Definition utf8_stdout : list string -> string -> option exn :=
  fun _ _ => None.

Definition ascii_stdout : list string -> string -> option exn :=
  fun _ s =>
    if forallb (fun c => Nat.ltb (Ascii.nat_of_ascii c) 128) (list_ascii_of_string s)
    then None
    else Some (UnicodeEncodeError s).

(** The world of a process that has just imported the module. *)
Definition fresh_world (sys_path : list string)
    (stdout_error : list string -> string -> option exn) : world :=
  {| w_globals := module_globals; w_sys_path := sys_path; w_stdout := [];
     w_stdout_error := stdout_error |}.

(** ** Properties of calls *)

(** A call that leaves the module's global bindings as it found them. *)
Definition read_only {A} (c : Py A) : Prop :=
  forall g, globals_after c g = g.

(** The bindings after [n] successive calls of [c]. *)
Definition after_calls {A} (n : nat) (c : Py A) (g : globals) : globals :=
  Nat.iter n (globals_after c) g.

(** The tags [ToolInfo.__init__] documents for [data_type]. *)
Definition data_types : list string := ["partial"; "combined"; "both"].

(** ** Describing what the overview printer does *)

(** The world after [print] calls with the arguments [printed] went
    through. *)
Definition add_stdout (printed : list string) (w : world) : world :=
  {| w_globals := w_globals w; w_sys_path := w_sys_path w;
     w_stdout := w_stdout w ++ printed;
     w_stdout_error := w_stdout_error w |}.

(** A standard output on which no [print] fails. *)
Definition stdout_accepts_all (w : world) : Prop :=
  forall written s, w_stdout_error w written s = None.

(** The world with other globals. *)
Definition with_globals (g : globals) (w : world) : world :=
  {| w_globals := g; w_sys_path := w_sys_path w; w_stdout := w_stdout w;
     w_stdout_error := w_stdout_error w |}.

(** Two worlds that differ in the globals at most, and a computation whose
    outcome and whose effect on the rest of the world are the same
    whatever the globals hold. *)
Definition same_but_globals (w1 w2 : world) : Prop :=
  w_sys_path w1 = w_sys_path w2
  /\ w_stdout w1 = w_stdout w2
  /\ w_stdout_error w1 = w_stdout_error w2.

Definition ignores_globals {A} (c : IO A) : Prop :=
  forall w1 w2,
    same_but_globals w1 w2 ->
    (c w1).1 = (c w2).1 /\ same_but_globals (c w1).2 (c w2).2.

(** The world once [parent_dir] is on the import path. *)
Definition with_parent_dir (parent_dir : string) (w : world) : world :=
  if bool_decide (parent_dir ∈ w_sys_path w) then w
  else {| w_globals := w_globals w; w_sys_path := parent_dir :: w_sys_path w;
          w_stdout := w_stdout w; w_stdout_error := w_stdout_error w |}.

(** A computation that does nothing but print: it leaves the globals and
    the import path alone and only adds to what was printed. *)
Definition only_prints {A} (c : IO A) : Prop :=
  forall w, exists printed, (c w).2 = add_stdout printed w.

(** The arguments of the six [print] calls that open the overview. *)
Definition banner_prints : list string :=
  [ str_mul "=" 70;
    "NEUTRON REFLECTOMETRY DATA ANALYSIS TOOLS";
    str_mul "=" 70;
    "";
    "📊 AVAILABLE ANALYSIS TOOLS:";
    str_mul "-" 40 ].

(** The arguments of the [print] calls for one tool: four, and a fifth
    with the first example when the tool has examples. *)
Definition prints_of_tool (item : string * ToolInfo) : list string :=
  [ nl +:+ "🔧 " +:+ name item.2;
    "   " +:+ description item.2;
    "   Data type: " +:+ data_type item.2;
    "   Usage: " +:+ usage item.2 ]
  ++ match examples item.2 with
     | [] => []
     | example0 :: _ => [ "   Example: " +:+ example0 ]
     end.

(** The keys [print_tool_overview] reads by subscript, in the order in
    which it reads them: of a workflow, and of the data organization. *)
Definition workflow_keys : list string := ["name"; "description"; "tools"].

Definition data_org_keys : list string :=
  [ "partial_data_dir"; "combined_data_dir"; "combined_data_template";
    "models_dir"; "reports_dir" ].

(** A dictionary that has all of [keys]. *)
Definition has_keys {V} (keys : list string) (d : dict V) : Prop :=
  Forall (fun k => is_Some (dict_get k d)) keys.

(** A configuration with which the data organization can be printed. *)
Definition usable_config (config : config_load) : Prop :=
  match config with
  | ImportFails => True
  | Loaded data_org => has_keys data_org_keys data_org
  | LoadRaises _ => False
  end.

(** The arguments of the six [print] calls that close the overview. *)
Definition closing_prints : list string :=
  [ nl +:+ "🚀 QUICK START:";
    str_mul "-" 40;
    "   1. For partial data quality: python analyzer_tools/partial_data_assessor.py 218281";
    "   2. For reflectivity fitting: python analyzer_tools/run_fit.py 218281 cu_thf";
    "   3. For result assessment: python analyzer_tools/result_assessor.py 218281 cu_thf";
    nl +:+ str_mul "=" 70 ].

(** The globals after [TOOLS] was bound to another dictionary, and after
    [WORKFLOWS] was. *)
Definition rebind_TOOLS (tools : dict ToolInfo) (g : globals) : globals :=
  {| g_TOOLS := tools; g_WORKFLOWS := g_WORKFLOWS g |}.

Definition rebind_WORKFLOWS (workflows : dict (dict pyval)) (g : globals) : globals :=
  {| g_TOOLS := g_TOOLS g; g_WORKFLOWS := workflows |}.

(** ** Smoke tests of the embedding *)

Example TOOLS_keys :
  dict_keys TOOLS =
  ["partial_data_assessor"; "run_fit"; "result_assessor";
   "create_model_script"; "create_temporary_model"].
Proof. reflexivity. Qed.

Example get_tool_run_fit :
  name <$> match result_of (get_tool "run_fit") module_globals with
           | Returns r => r
           | Raises _ => None
           end = Some "Reflectivity Fit Runner".
Proof. reflexivity. Qed.

Example partial_tools :
  match result_of (get_tools_by_data_type "partial") module_globals with
  | Returns d => dict_keys d
  | Raises _ => []
  end = ["partial_data_assessor"; "create_temporary_model"].
Proof. reflexivity. Qed.

Example dict_set_overwrites_in_place :
  dict_set "a" 3 (dict_literal [("a", 1); ("b", 2)]) = [("a", 3); ("b", 2)].
Proof. reflexivity. Qed.

Example module_functions_are :
  module_functions =
  ["get_all_tools"; "get_tool"; "get_tools_by_data_type"; "get_workflows";
   "print_tool_overview"].
Proof. reflexivity. Qed.

(** ** Facts about dictionaries *)

Section DictFacts.
Context {V : Type}.
Implicit Types (d acc : dict V) (k : string) (v : V).

Lemma dict_get_None k d : dict_get k d = None <-> k ∉ dict_keys d.
Proof.
  induction d as [|[k' v'] d IH]; simpl.
  - split; [intros _; apply not_elem_of_nil | done].
  - rewrite not_elem_of_cons. destruct (String.eqb_spec k' k) as [->|Hne].
    + split; [done | intros [? _]; done].
    + rewrite IH. split; [intros ?; split; congruence | intros [_ ?]; done].
Qed.

Lemma dict_get_Some_elem k v d :
  dict_get k d = Some v -> (k, v) ∈ dict_items d.
Proof.
  induction d as [|[k' v'] d IH]; simpl; [done|].
  destruct (String.eqb_spec k' k) as [->|Hne].
  - intros [= ->]. apply list_elem_of_here.
  - intros H. apply list_elem_of_further, IH, H.
Qed.

Lemma dict_elem_keys k v d : (k, v) ∈ dict_items d -> k ∈ dict_keys d.
Proof. intros H. exact (list_elem_of_fmap_2 fst d (k, v) H). Qed.

Lemma dict_elem_get k v d :
  dict_wf d -> (k, v) ∈ dict_items d -> dict_get k d = Some v.
Proof.
  unfold dict_wf, dict_keys, dict_items.
  induction d as [|[k' v'] d IH]; simpl; intros Hwf Hin.
  - by apply elem_of_nil in Hin.
  - apply NoDup_cons in Hwf as [Hfresh Hwf].
    apply elem_of_cons in Hin as [[= -> ->]|Hin].
    + by rewrite String.eqb_refl.
    + destruct (String.eqb_spec k' k) as [->|Hne]; [|by apply IH].
      exfalso. apply Hfresh. by apply (dict_elem_keys k v).
Qed.

(** Storing under a key the dictionary does not have appends. *)
Lemma dict_set_fresh k v d : k ∉ dict_keys d -> dict_set k v d = d ++ [(k, v)].
Proof.
  induction d as [|[k' v'] d IH]; simpl; [done|].
  rewrite not_elem_of_cons. intros [Hne Hfresh].
  destruct (String.eqb_spec k' k) as [->|_]; [done|].
  by rewrite IH.
Qed.

(** On a dictionary, a comprehension with a condition is the filter of
    the items, in their order; [acc] is what the loop has stored so
    far. *)
Lemma comprehension_loop (cond : string -> V -> bool) d acc :
  NoDup ((acc ++ d).*1) ->
  fold_left (fun a kv => if cond kv.1 kv.2 then dict_set kv.1 kv.2 a else a) d acc
  = acc ++ filter (fun kv => cond kv.1 kv.2) d.
Proof.
  revert acc. induction d as [|[k v] d IH]; intros acc Hnd.
  - simpl. by rewrite app_nil_r.
  - rewrite filter_cons. cbn [fold_left fst snd].
    assert (Hk : k ∉ dict_keys acc).
    { rewrite fmap_app in Hnd. apply NoDup_app in Hnd as (_ & Hdisj & _).
      intros Hin. apply (Hdisj _ Hin). simpl. apply list_elem_of_here. }
    destruct (cond k v).
    + rewrite decide_True by done.
      rewrite (dict_set_fresh _ _ _ Hk), IH.
      * by rewrite <- app_assoc.
      * by rewrite <- app_assoc.
    + rewrite decide_False by (intros []). apply IH.
      rewrite fmap_app in *. simpl in Hnd.
      apply NoDup_app in Hnd as (Ha & Hdisj & Hd).
      apply NoDup_cons in Hd as [_ Hd].
      apply NoDup_app. split_and!; [done | | done].
      intros x Hx Hx'. apply (Hdisj x Hx). by apply list_elem_of_further.
Qed.

Lemma dict_comprehension_filter (cond : string -> V -> bool) d :
  dict_wf d ->
  dict_items (dict_comprehension cond d)
  = filter (fun kv => cond kv.1 kv.2) (dict_items d).
Proof.
  intros Hwf. unfold dict_comprehension, dict_items, dict_empty.
  by rewrite comprehension_loop.
Qed.

Lemma dict_comprehension_wf (cond : string -> V -> bool) d :
  dict_wf d -> dict_wf (dict_comprehension cond d).
Proof.
  intros Hwf. unfold dict_wf, dict_keys.
  change (NoDup ((dict_items (dict_comprehension cond d)).*1)).
  rewrite dict_comprehension_filter by done.
  eapply sublist_NoDup; [exact Hwf|].
  apply fmap_sublist, sublist_filter.
Qed.
End DictFacts.

(** ** Running the queries *)

Section Queries.
Implicit Types (g : globals) (c : string).

Lemma get_all_tools_run g : get_all_tools g = (Returns (g_TOOLS g), g).
Proof. reflexivity. Qed.

Lemma get_tool_run tool_name g :
  get_tool tool_name g = (Returns (dict_get tool_name (g_TOOLS g)), g).
Proof. reflexivity. Qed.

Lemma get_tools_by_data_type_run c g :
  get_tools_by_data_type c g
  = (Returns (dict_comprehension (fun _ tool => works_with c tool) (g_TOOLS g)), g).
Proof. reflexivity. Qed.

Lemma get_workflows_run g : get_workflows g = (Returns (g_WORKFLOWS g), g).
Proof. reflexivity. Qed.

Lemma works_with_spec c (tool : ToolInfo) :
  works_with c tool <-> data_type tool = c \/ data_type tool = "both".
Proof.
  unfold works_with. rewrite orb_True.
  by rewrite !Is_true_true, !String.eqb_eq.
Qed.

(** What the comprehension of [get_tools_by_data_type] builds from a
    dictionary. *)
Lemma tools_by_data_type_items c (tools : dict ToolInfo) :
  dict_wf tools ->
  dict_items (dict_comprehension (fun _ tool => works_with c tool) tools)
  = filter (fun kv => works_with c kv.2) (dict_items tools).
Proof. intros Hwf. by rewrite dict_comprehension_filter. Qed.

Lemma tools_by_data_type_elem c (tools : dict ToolInfo) k e :
  dict_wf tools ->
  (k, e) ∈ dict_items (dict_comprehension (fun _ tool => works_with c tool) tools)
  <-> (k, e) ∈ dict_items tools /\ (data_type e = c \/ data_type e = "both").
Proof.
  intros Hwf. rewrite tools_by_data_type_items by done.
  rewrite list_elem_of_filter. simpl. rewrite works_with_spec. tauto.
Qed.
End Queries.

(** ** Read-only calls *)

Create HintDb readonly.

Lemma read_only_ret {A} (a : A) : read_only (ret a).
Proof. by intros g. Qed.

Lemma read_only_raise {A} (e : exn) : read_only (@raise A e).
Proof. by intros g. Qed.

Lemma read_only_load_TOOLS : read_only load_TOOLS.
Proof. by intros g. Qed.

Lemma read_only_load_WORKFLOWS : read_only load_WORKFLOWS.
Proof. by intros g. Qed.

Lemma read_only_bind {A B} (c : Py A) (k : A -> Py B) :
  read_only c -> (forall a, read_only (k a)) -> read_only (bind c k).
Proof.
  intros Hc Hk g. unfold globals_after, bind.
  specialize (Hc g). unfold globals_after in Hc.
  destruct (c g) as [[a|e] g']; simpl in *; subst g'; [apply Hk | done].
Qed.

#[local] Hint Resolve read_only_ret read_only_raise read_only_load_TOOLS
  read_only_load_WORKFLOWS read_only_bind : readonly.

Lemma read_only_after_calls {A} (c : Py A) n g :
  read_only c -> after_calls n c g = g.
Proof.
  intros Hc. unfold after_calls.
  induction n as [|n IH]; simpl; [done|]. by rewrite IH.
Qed.

Lemma read_only_get_all_tools : read_only get_all_tools.
Proof. unfold get_all_tools. auto with readonly. Qed.

Lemma read_only_get_tool tool_name : read_only (get_tool tool_name).
Proof. unfold get_tool. auto with readonly. Qed.

Lemma read_only_get_tools_by_data_type c : read_only (get_tools_by_data_type c).
Proof. unfold get_tools_by_data_type. auto with readonly. Qed.

Lemma read_only_get_workflows : read_only get_workflows.
Proof. unfold get_workflows. auto with readonly. Qed.

(** ** The static catalogs *)

Lemma TOOLS_items : dict_items TOOLS = TOOLS_display.
Proof. reflexivity. Qed.

Lemma WORKFLOWS_items : dict_items WORKFLOWS = WORKFLOWS_display.
Proof. reflexivity. Qed.

Lemma TOOLS_wf : dict_wf TOOLS.
Proof. unfold dict_wf. compute_done. Qed.

Lemma TOOLS_elem k e :
  (k, e) ∈ dict_items TOOLS <->
  (k, e) = ("partial_data_assessor", partial_data_assessor_info)
  \/ (k, e) = ("run_fit", run_fit_info)
  \/ (k, e) = ("result_assessor", result_assessor_info)
  \/ (k, e) = ("create_model_script", create_model_script_info)
  \/ (k, e) = ("create_temporary_model", create_temporary_model_info).
Proof.
  rewrite TOOLS_items. unfold TOOLS_display.
  rewrite !elem_of_cons, elem_of_nil. tauto.
Qed.

(** ** Category filter *)

(** C1. For every entry [(k, e)] of the tool catalog and each of the two
    specific categories, the entry appears in the result of
    [get_tools_by_data_type] for that category exactly when its [data_type]
    is that category or is ["both"]. In particular an entry tagged
    ["both"] appears in the results for ["partial"] and for ["combined"],
    and an entry tagged ["combined"] does not appear in the result for
    ["partial"]. *)
Theorem category_filter_correct k e :
  (k, e) ∈ dict_items TOOLS ->
  exists rp rc,
    get_tools_by_data_type "partial" module_globals = (Returns rp, module_globals)
    /\ get_tools_by_data_type "combined" module_globals = (Returns rc, module_globals)
    /\ ((k, e) ∈ dict_items rp <-> data_type e = "partial" \/ data_type e = "both")
    /\ ((k, e) ∈ dict_items rc <-> data_type e = "combined" \/ data_type e = "both")
    /\ (data_type e = "both" -> (k, e) ∈ dict_items rp /\ (k, e) ∈ dict_items rc)
    /\ (data_type e = "combined" -> (k, e) ∉ dict_items rp).
Proof.
  intros Hin. do 2 eexists.
  rewrite !get_tools_by_data_type_run. simpl g_TOOLS.
  split; [reflexivity|]. split; [reflexivity|].
  rewrite !(tools_by_data_type_elem _ _ _ _ TOOLS_wf).
  split_and!.
  - tauto.
  - tauto.
  - intros Hboth. tauto.
  - intros Hcomb [_ [Hp|Hb]]; rewrite Hcomb in *; discriminate.
Qed.

Lemma category_filter_correct_witness :
  ("create_temporary_model", create_temporary_model_info) ∈ dict_items TOOLS
  /\ exists rp rc,
    get_tools_by_data_type "partial" module_globals = (Returns rp, module_globals)
    /\ get_tools_by_data_type "combined" module_globals = (Returns rc, module_globals)
    /\ (("create_temporary_model", create_temporary_model_info) ∈ dict_items rp
        <-> data_type create_temporary_model_info = "partial"
            \/ data_type create_temporary_model_info = "both")
    /\ (("create_temporary_model", create_temporary_model_info) ∈ dict_items rc
        <-> data_type create_temporary_model_info = "combined"
            \/ data_type create_temporary_model_info = "both")
    /\ (data_type create_temporary_model_info = "both" ->
        ("create_temporary_model", create_temporary_model_info) ∈ dict_items rp
        /\ ("create_temporary_model", create_temporary_model_info) ∈ dict_items rc)
    /\ (data_type create_temporary_model_info = "combined" ->
        ("create_temporary_model", create_temporary_model_info) ∉ dict_items rp).
Proof.
  split.
  - apply dict_get_Some_elem. reflexivity.
  - apply (category_filter_correct "create_temporary_model" create_temporary_model_info).
    apply dict_get_Some_elem. reflexivity.
Defined.

(** ** Lookup *)

(** C2. For a key that the tool catalog does not have, [get_tool] returns
    [None]: it does not raise, it does not return an entry, and it leaves
    the catalogs alone. [None] is returned for no key that the catalog
    has, so it tells absence apart from every real entry. *)
Theorem get_tool_absent g k :
  k ∉ dict_keys (g_TOOLS g) ->
  get_tool k g = (Returns None, g)
  /\ (forall x, result_of (get_tool k) g <> Raises x)
  /\ (forall e, result_of (get_tool k) g <> Returns (Some e))
  /\ (forall k' e', (k', e') ∈ dict_items (g_TOOLS g) ->
        result_of (get_tool k') g <> Returns None).
Proof.
  intros Hk. apply dict_get_None in Hk.
  unfold result_of. rewrite !get_tool_run, Hk.
  split_and!; try done.
  intros k' e' Hin. rewrite get_tool_run. intros [= Hnone].
  apply dict_get_None in Hnone. apply Hnone. by apply (dict_elem_keys k' e').
Qed.

Lemma get_tool_absent_witness :
  ("nonexistent_key" ∉ dict_keys (g_TOOLS module_globals))
  /\ get_tool "nonexistent_key" module_globals = (Returns None, module_globals).
Proof.
  assert (H : "nonexistent_key" ∉ dict_keys (g_TOOLS module_globals)).
  { apply dict_get_None. reflexivity. }
  split; [exact H|].
  exact (proj1 (get_tool_absent module_globals "nonexistent_key" H)).
Defined.

(** ** Referential integrity *)

(** C3. Every workflow of the static workflow catalog has a list of tool
    references, [workflow['tools']], and every reference in it is the key
    of an entry of the static tool catalog, which [get_tool] returns. *)
Theorem workflows_reference_tools wk w :
  (wk, w) ∈ dict_items WORKFLOWS ->
  exists refs,
    dict_getitem "tools" w = Returns (PList refs)
    /\ forall t, t ∈ refs ->
         exists e, get_tool t module_globals = (Returns (Some e), module_globals)
                   /\ (t, e) ∈ dict_items TOOLS.
Proof.
  rewrite WORKFLOWS_items. unfold WORKFLOWS_display.
  rewrite !elem_of_cons, elem_of_nil.
  intros [[= -> ->]|[[= -> ->]|[[= -> ->]|[]]]].
  all: eexists; split; [reflexivity|].
  all: intros t; rewrite !elem_of_cons, elem_of_nil; intros Ht.
  all: repeat (destruct Ht as [->|Ht]); try done.
  all: eexists; split; [reflexivity|].
  all: apply dict_get_Some_elem; reflexivity.
Qed.

Lemma workflows_reference_tools_witness :
  ("standard_fitting", standard_fitting_workflow) ∈ dict_items WORKFLOWS
  /\ exists refs,
       dict_getitem "tools" standard_fitting_workflow = Returns (PList refs)
       /\ forall t, t ∈ refs ->
            exists e, get_tool t module_globals = (Returns (Some e), module_globals)
                      /\ (t, e) ∈ dict_items TOOLS.
Proof.
  split.
  - apply dict_get_Some_elem. reflexivity.
  - apply (workflows_reference_tools "standard_fitting" standard_fitting_workflow).
    apply dict_get_Some_elem. reflexivity.
Defined.

(** ** The operations of the registry *)

(** C4 (as stated, it fails). The module has no function [validate]. *)
Lemma validate_not_provided : "validate" ∉ module_functions.
Proof. compute_done. Qed.

(** *** Computations that do not look at the catalogs *)

Create HintDb noglobals.

Lemma ignores_globals_ret {A} (a : A) : ignores_globals (io_ret a).
Proof. intros w1 w2 H. by split. Qed.

Lemma ignores_globals_eval {A} (o : outcome A) : ignores_globals (io_eval o).
Proof. intros w1 w2 H. by split. Qed.

Lemma ignores_globals_print s : ignores_globals (print s).
Proof.
  intros [g1 p1 o1 e1] [g2 p2 o2 e2] (Hpath & Hout & Herr).
  simpl in Hpath, Hout, Herr. subst p2 o2 e2.
  unfold print, same_but_globals. simpl.
  by destruct (e1 o1 s).
Qed.

Lemma ignores_globals_bind {A B} (c : IO A) (k : A -> IO B) :
  ignores_globals c -> (forall a, ignores_globals (k a)) ->
  ignores_globals (io_bind c k).
Proof.
  intros Hc Hk w1 w2 H. unfold io_bind.
  destruct (Hc w1 w2 H) as [Hr Hw].
  destruct (c w1) as [[a1|e1] w1'], (c w2) as [[a2|e2] w2']; simpl in Hr, Hw;
    try discriminate.
  - injection Hr as ->. by apply Hk.
  - injection Hr as ->. by split.
Qed.

#[local] Hint Resolve ignores_globals_ret ignores_globals_eval
  ignores_globals_print ignores_globals_bind : noglobals.

Lemma ignores_globals_print_workflow str_of_list chars_of item :
  ignores_globals (print_workflow str_of_list chars_of item).
Proof. unfold print_workflow. auto 10 with noglobals. Qed.

(** C4 (amended). The registry has no [validate], and no operation of it
    reports a dangling reference. The functions of the module are
    [get_all_tools], [get_tool], [get_tools_by_data_type], [get_workflows]
    and [print_tool_overview], and no others, and asking the module for
    [validate] raises [AttributeError]. The three queries on tools return
    the same whatever the workflow catalog holds, and [get_workflows]
    returns the same whatever the tool catalog holds. The one place that
    reads the tool references of a workflow, the loop body of
    [print_tool_overview], returns or raises the same and prints the same
    whatever the two catalogs hold: it prints the references as they are
    and does not look them up. *)
Theorem registry_functions :
  module_functions =
    ["get_all_tools"; "get_tool"; "get_tools_by_data_type"; "get_workflows";
     "print_tool_overview"]
  /\ (forall interpreter_sets,
        module_getattr interpreter_sets "validate"
        = Raises (AttributeError "validate"))
  /\ dict_get "validate" module_bindings = None
  /\ (forall g workflows,
        result_of get_all_tools (rebind_WORKFLOWS workflows g)
        = result_of get_all_tools g
        /\ (forall tool_name,
              result_of (get_tool tool_name) (rebind_WORKFLOWS workflows g)
              = result_of (get_tool tool_name) g)
        /\ (forall c,
              result_of (get_tools_by_data_type c) (rebind_WORKFLOWS workflows g)
              = result_of (get_tools_by_data_type c) g))
  /\ (forall g tools,
        result_of get_workflows (rebind_TOOLS tools g) = result_of get_workflows g)
  /\ (forall str_of_list chars_of item g w,
        (print_workflow str_of_list chars_of item (with_globals g w)).1
        = (print_workflow str_of_list chars_of item w).1
        /\ w_stdout (print_workflow str_of_list chars_of item (with_globals g w)).2
           = w_stdout (print_workflow str_of_list chars_of item w).2).
Proof.
  split_and!; try reflexivity.
  - intros g workflows. split_and!; reflexivity.
  - intros str_of_list chars_of item g w.
    destruct (ignores_globals_print_workflow str_of_list chars_of item
                (with_globals g w) w) as (Hr & _ & Hout & _); [|by split].
    by split_and!.
Qed.

(** ** The full catalog *)

(** C5. [get_all_tools] returns the tool catalog, whose items are exactly
    the five entries of the static definition, in the order of that
    definition. *)
Theorem get_all_tools_static :
  get_all_tools module_globals = (Returns TOOLS, module_globals)
  /\ dict_items TOOLS =
       [ ("partial_data_assessor", partial_data_assessor_info);
         ("run_fit", run_fit_info);
         ("result_assessor", result_assessor_info);
         ("create_model_script", create_model_script_info);
         ("create_temporary_model", create_temporary_model_info) ]
  /\ dict_keys TOOLS =
       [ "partial_data_assessor"; "run_fit"; "result_assessor";
         "create_model_script"; "create_temporary_model" ]
  /\ dict_len TOOLS = 5.
Proof. split_and!; reflexivity. Qed.

(** C6. The static tool catalog is well formed: no key occurs twice in it
    (and none did in the display it was built from, so the display lost no
    entry), and the [data_type] of every entry is one of ["partial"],
    ["combined"] and ["both"]. *)
Theorem tool_catalog_well_formed :
  NoDup (dict_keys TOOLS)
  /\ NoDup (TOOLS_display.*1)
  /\ dict_len TOOLS = length TOOLS_display
  /\ Forall (fun kv => data_type kv.2 ∈ data_types) (dict_items TOOLS).
Proof.
  split_and!.
  - apply TOOLS_wf.
  - compute_done.
  - reflexivity.
  - compute_done.
Qed.

(** C7. Two successive calls of [get_all_tools] return the same items in
    the same order, whatever the bindings they start from; from the
    module's own bindings, both return the keys in the order of the static
    definition. *)
Theorem get_all_tools_order_stable :
  (forall g, exists d1 d2 g1 g2,
      get_all_tools g = (Returns d1, g1)
      /\ get_all_tools g1 = (Returns d2, g2)
      /\ dict_items d1 = dict_items d2
      /\ dict_keys d1 = dict_keys d2)
  /\ (exists d1 d2 g1 g2,
      get_all_tools module_globals = (Returns d1, g1)
      /\ get_all_tools g1 = (Returns d2, g2)
      /\ dict_keys d1 =
           [ "partial_data_assessor"; "run_fit"; "result_assessor";
             "create_model_script"; "create_temporary_model" ]
      /\ dict_keys d2 =
           [ "partial_data_assessor"; "run_fit"; "result_assessor";
             "create_model_script"; "create_temporary_model" ]).
Proof.
  split.
  - intros g. exists (g_TOOLS g), (g_TOOLS g), g, g.
    by rewrite get_all_tools_run.
  - exists TOOLS, TOOLS, module_globals, module_globals.
    split_and!; reflexivity.
Qed.

(** ** Idempotence *)

Lemma read_only_repeatable {A} (c : Py A) n g :
  read_only c ->
  after_calls n c g = g /\ result_of c (after_calls n c g) = result_of c g.
Proof.
  intros Hc. by rewrite read_only_after_calls.
Qed.

(** C8. Each of the four queries is idempotent: after any number of calls
    with the same argument the two catalogs are bound as before, and one
    more call returns what the first call returned. *)
Theorem queries_idempotent g n :
  (after_calls n get_all_tools g = g
   /\ result_of get_all_tools (after_calls n get_all_tools g)
      = result_of get_all_tools g)
  /\ (forall tool_name,
        after_calls n (get_tool tool_name) g = g
        /\ result_of (get_tool tool_name) (after_calls n (get_tool tool_name) g)
           = result_of (get_tool tool_name) g)
  /\ (forall c,
        after_calls n (get_tools_by_data_type c) g = g
        /\ result_of (get_tools_by_data_type c)
             (after_calls n (get_tools_by_data_type c) g)
           = result_of (get_tools_by_data_type c) g)
  /\ (after_calls n get_workflows g = g
      /\ result_of get_workflows (after_calls n get_workflows g)
         = result_of get_workflows g).
Proof.
  split_and!; intros; apply read_only_repeatable;
    auto using read_only_get_all_tools, read_only_get_tool,
      read_only_get_tools_by_data_type, read_only_get_workflows.
Qed.

(** ** Arguments that are no entry's tag *)

(** When no entry carries [c] as its tag (unless [c] is ["both"]), the
    condition of the comprehension selects the entries tagged ["both"]. *)
Lemma unmatched_filter c (tools : dict ToolInfo) :
  (forall k e, (k, e) ∈ dict_items tools -> data_type e = c -> c = "both") ->
  filter (fun kv => works_with c kv.2) (dict_items tools)
  = filter (fun kv => data_type kv.2 = "both") (dict_items tools).
Proof.
  unfold dict_items.
  induction tools as [|[k e] tools IH]; intros Hc; [done|].
  rewrite !filter_cons. simpl.
  rewrite IH by (intros k' e' Hin; apply (Hc k' e'); by apply list_elem_of_further).
  destruct (decide (data_type e = "both")) as [Hboth|Hnboth].
  - rewrite decide_True; [done|]. apply works_with_spec. by right.
  - rewrite decide_False; [done|]. rewrite works_with_spec.
    intros [Heq|Heq]; [|done].
    apply Hnboth. rewrite Heq. apply (Hc k e); [apply list_elem_of_here | done].
Qed.

Lemma unmatched_data_type_general g c :
  dict_wf (g_TOOLS g) ->
  (forall k e, (k, e) ∈ dict_items (g_TOOLS g) -> data_type e = c -> c = "both") ->
  exists r,
    get_tools_by_data_type c g = (Returns r, g)
    /\ dict_items r = filter (fun kv => data_type kv.2 = "both") (dict_items (g_TOOLS g)).
Proof.
  intros Hwf Hc. eexists. rewrite get_tools_by_data_type_run.
  split; [reflexivity|].
  rewrite tools_by_data_type_items by done. by apply unmatched_filter.
Qed.

Example both_tagged_tools :
  filter (fun kv => data_type kv.2 = "both") (dict_items TOOLS)
  = [("create_temporary_model", create_temporary_model_info)].
Proof. reflexivity. Qed.

Example get_tools_by_data_type_both :
  get_tools_by_data_type "both" module_globals
  = (Returns [("create_temporary_model", create_temporary_model_info)], module_globals).
Proof. reflexivity. Qed.

(** C9. For an argument [c] that is the tag of no entry of the static
    catalog, unless it is ["both"] itself, [get_tools_by_data_type c]
    returns the entries tagged ["both"], which are the one entry
    [create_temporary_model]: it does not raise, and its result is not
    empty. *)
Theorem unmatched_data_type_gives_both c :
  (forall k e, (k, e) ∈ dict_items TOOLS -> data_type e = c -> c = "both") ->
  get_tools_by_data_type c module_globals
  = (Returns [("create_temporary_model", create_temporary_model_info)], module_globals)
  /\ [("create_temporary_model", create_temporary_model_info)]
     = filter (fun kv => data_type kv.2 = "both") (dict_items TOOLS).
Proof.
  intros Hc.
  destruct (unmatched_data_type_general module_globals c TOOLS_wf Hc) as (r & Hrun & Hr).
  rewrite Hrun. unfold dict_items in Hr. rewrite Hr. split; reflexivity.
Qed.

Lemma unmatched_data_type_gives_both_witness :
  (forall k e, (k, e) ∈ dict_items TOOLS -> data_type e = "xyz" -> "xyz" = "both")
  /\ get_tools_by_data_type "xyz" module_globals
     = (Returns [("create_temporary_model", create_temporary_model_info)], module_globals).
Proof.
  assert (H : forall k e,
             (k, e) ∈ dict_items TOOLS -> data_type e = "xyz" -> "xyz" = "both").
  { intros k e Hin. apply TOOLS_elem in Hin.
    destruct Hin as [[= -> ->]|[[= -> ->]|[[= -> ->]|[[= -> ->]|[= -> ->]]]]];
      discriminate. }
  split; [exact H|].
  exact (proj1 (unmatched_data_type_gives_both "xyz" H)).
Defined.

(** ** Order of the filtered catalog *)

(** C10. For every argument [c], the items of [get_tools_by_data_type c]
    are the items of the tool catalog that satisfy the condition, in the
    order in which the catalog has them: the result is a subsequence of
    the catalog, and so are its keys. *)
Theorem filter_preserves_order g c :
  dict_wf (g_TOOLS g) ->
  exists r,
    get_tools_by_data_type c g = (Returns r, g)
    /\ dict_items r = filter (fun kv => works_with c kv.2) (dict_items (g_TOOLS g))
    /\ dict_items r `sublist_of` dict_items (g_TOOLS g)
    /\ dict_keys r `sublist_of` dict_keys (g_TOOLS g).
Proof.
  intros Hwf. eexists. rewrite get_tools_by_data_type_run.
  split; [reflexivity|].
  assert (Hitems := tools_by_data_type_items c (g_TOOLS g) Hwf).
  split; [exact Hitems|].
  assert (Hsub : dict_items (dict_comprehension (fun _ tool => works_with c tool) (g_TOOLS g))
                 `sublist_of` dict_items (g_TOOLS g)).
  { rewrite Hitems. apply sublist_filter. }
  split; [exact Hsub|].
  unfold dict_keys. by apply fmap_sublist.
Qed.

Lemma filter_preserves_order_witness :
  dict_wf (g_TOOLS module_globals)
  /\ exists r,
       get_tools_by_data_type "combined" module_globals = (Returns r, module_globals)
       /\ dict_items r
          = filter (fun kv => works_with "combined" kv.2) (dict_items (g_TOOLS module_globals))
       /\ dict_items r `sublist_of` dict_items (g_TOOLS module_globals)
       /\ dict_keys r `sublist_of` dict_keys (g_TOOLS module_globals).
Proof.
  assert (H : dict_wf (g_TOOLS module_globals)).
  { unfold dict_wf. apply (bool_decide_unpack _). vm_compute. exact I. }
  split; [exact H|].
  exact (filter_preserves_order module_globals "combined" H).
Defined.

Example combined_tools_in_order :
  match result_of (get_tools_by_data_type "combined") module_globals with
  | Returns d => dict_keys d
  | Raises _ => []
  end = ["run_fit"; "result_assessor"; "create_model_script"; "create_temporary_model"].
Proof. reflexivity. Qed.

(** ** More on the queries, for any catalog *)

Section QueriesOnAnyCatalog.
Implicit Types (g : globals) (c k : string) (e : ToolInfo).

(** X1. Lookup agrees with the full catalog: [get_tool k] returns an entry
    [e] exactly when [(k, e)] is an item of the dictionary that
    [get_all_tools] returns. *)
Theorem get_tool_agrees_with_get_all_tools g k e :
  dict_wf (g_TOOLS g) ->
  result_of (get_tool k) g = Returns (Some e)
  <-> exists d, result_of get_all_tools g = Returns d /\ (k, e) ∈ dict_items d.
Proof.
  intros Hwf. unfold result_of. rewrite get_tool_run, get_all_tools_run. simpl. split.
  - intros [= Hget]. eexists. split; [reflexivity|]. by apply dict_get_Some_elem.
  - intros (d & [= <-] & Hin). f_equal. by apply dict_elem_get.
Qed.

Lemma dict_get_filter {V} (P : string * V -> Prop) `{!forall x, Decision (P x)}
    (d : dict V) k :
  dict_wf d ->
  dict_get k (filter P (dict_items d))
  = match dict_get k d with
    | Some v => if decide (P (k, v)) then Some v else None
    | None => None
    end.
Proof.
  unfold dict_wf, dict_keys, dict_items.
  induction d as [|[k' v'] d IH]; intros Hwf; [done|].
  simpl in Hwf. apply NoDup_cons in Hwf as [Hfresh Hwf].
  rewrite filter_cons. simpl.
  destruct (String.eqb_spec k' k) as [->|Hne].
  - destruct (decide (P (k, v'))) as [HP|HP]; simpl.
    + by rewrite String.eqb_refl.
    + rewrite IH by done.
      apply dict_get_None in Hfresh. unfold dict_keys in Hfresh.
      by rewrite Hfresh.
  - destruct (decide (P (k', v'))); simpl.
    + apply String.eqb_neq in Hne. rewrite Hne. by apply IH.
    + by apply IH.
Qed.

(** X3. The result of [get_tools_by_data_type c] is again a dictionary
    with distinct keys, no longer than the catalog, and looking a key up in
    it gives the catalog's entry for that key when the entry passes the
    condition, and nothing otherwise. *)
Theorem filtered_catalog_lookup g c k :
  dict_wf (g_TOOLS g) ->
  exists r,
    get_tools_by_data_type c g = (Returns r, g)
    /\ dict_wf r
    /\ dict_len r <= dict_len (g_TOOLS g)
    /\ dict_get k r
       = match dict_get k (g_TOOLS g) with
         | Some e => if works_with c e then Some e else None
         | None => None
         end.
Proof.
  intros Hwf. eexists. rewrite get_tools_by_data_type_run.
  split; [reflexivity|]. split; [by apply dict_comprehension_wf|].
  assert (Hitems := tools_by_data_type_items c (g_TOOLS g) Hwf).
  unfold dict_items in Hitems. rewrite Hitems.
  split.
  - unfold dict_len. apply length_filter.
  - rewrite (dict_get_filter (fun kv => works_with c kv.2) (g_TOOLS g) k Hwf).
    destruct (dict_get k (g_TOOLS g)) as [e|]; [|done]. simpl.
    by destruct (works_with c e).
Qed.

(** X2. For any catalog and any argument [c], also one that is none of the
    documented tags, the items of [get_tools_by_data_type c] are exactly
    the items of the catalog whose [data_type] is [c] or ["both"]. *)
Theorem filtered_catalog_members g c k e :
  dict_wf (g_TOOLS g) ->
  exists r,
    get_tools_by_data_type c g = (Returns r, g)
    /\ ((k, e) ∈ dict_items r
        <-> (k, e) ∈ dict_items (g_TOOLS g)
            /\ (data_type e = c \/ data_type e = "both")).
Proof.
  intros Hwf. eexists. rewrite get_tools_by_data_type_run.
  split; [reflexivity|]. by apply tools_by_data_type_elem.
Qed.

(** X4. The results for two different arguments have exactly the entries
    tagged ["both"] in common. *)
Theorem two_categories_share_both g c1 c2 k e :
  dict_wf (g_TOOLS g) ->
  c1 <> c2 ->
  exists r1 r2,
    get_tools_by_data_type c1 g = (Returns r1, g)
    /\ get_tools_by_data_type c2 g = (Returns r2, g)
    /\ ((k, e) ∈ dict_items r1 /\ (k, e) ∈ dict_items r2
        <-> (k, e) ∈ dict_items (g_TOOLS g) /\ data_type e = "both").
Proof.
  intros Hwf Hne. do 2 eexists. rewrite !get_tools_by_data_type_run.
  split; [reflexivity|]. split; [reflexivity|].
  rewrite !tools_by_data_type_elem by done.
  split.
  - intros [[Hin [H1|H1]] [_ [H2|H2]]]; try done. congruence.
  - intros [Hin Hboth]. auto.
Qed.

Lemma filter_sublist_impl {A} (P Q : A -> Prop)
    `{!forall x, Decision (P x), !forall x, Decision (Q x)} (l : list A) :
  (forall x, P x -> Q x) -> filter P l `sublist_of` filter Q l.
Proof.
  intros HPQ. induction l as [|x l IH]; [done|].
  rewrite !filter_cons.
  destruct (decide (P x)) as [HP|HP].
  - rewrite decide_True by auto. by apply sublist_skip.
  - destruct (decide (Q x)); [by apply sublist_cons | done].
Qed.

(** X5. The result for ["both"] is contained, in order, in the result for
    every argument. *)
Theorem both_tools_in_every_result g c :
  dict_wf (g_TOOLS g) ->
  exists rb rc,
    get_tools_by_data_type "both" g = (Returns rb, g)
    /\ get_tools_by_data_type c g = (Returns rc, g)
    /\ dict_items rb `sublist_of` dict_items rc.
Proof.
  intros Hwf. do 2 eexists. rewrite !get_tools_by_data_type_run.
  split; [reflexivity|]. split; [reflexivity|].
  rewrite !tools_by_data_type_items by done.
  apply filter_sublist_impl. intros [k e]. simpl.
  rewrite !works_with_spec. tauto.
Qed.

(** X8. A tool constructed without [data_type] takes the default ["both"],
    so [get_tools_by_data_type] returns it for every argument. *)
Theorem default_data_type_matches_every_argument g c k n m d u ex :
  dict_wf (g_TOOLS g) ->
  (k, ToolInfo_init n m d u ex None) ∈ dict_items (g_TOOLS g) ->
  exists r,
    get_tools_by_data_type c g = (Returns r, g)
    /\ (k, ToolInfo_init n m d u ex None) ∈ dict_items r.
Proof.
  intros Hwf Hin. eexists. rewrite get_tools_by_data_type_run.
  split; [reflexivity|].
  apply tools_by_data_type_elem; [done|]. split; [done|]. by right.
Qed.

(** X7. Filtering is idempotent: with [TOOLS] bound to the result of
    [get_tools_by_data_type c], the same call returns that result again. *)
Theorem filtering_twice_changes_nothing g c :
  dict_wf (g_TOOLS g) ->
  exists r,
    get_tools_by_data_type c g = (Returns r, g)
    /\ get_tools_by_data_type c (rebind_TOOLS r g) = (Returns r, rebind_TOOLS r g).
Proof.
  intros Hwf. eexists. rewrite !get_tools_by_data_type_run.
  split; [reflexivity|]. f_equal. f_equal. simpl.
  set (r := dict_comprehension _ (g_TOOLS g)).
  assert (Hr : dict_wf r) by by apply dict_comprehension_wf.
  assert (H2 := tools_by_data_type_items c r Hr).
  assert (H1 := tools_by_data_type_items c (g_TOOLS g) Hwf).
  unfold dict_items in *. rewrite H2. fold r in H1. rewrite H1 at 2. rewrite H1.
  rewrite list_filter_filter. apply list_filter_iff. tauto.
Qed.

(** X6. An entry of the catalog is returned for ["partial"] or for
    ["combined"] exactly when its [data_type] is one of the three documented
    tags: an entry with any other tag is in neither result. *)
Theorem specific_categories_cover_the_tags g k e :
  dict_wf (g_TOOLS g) ->
  (k, e) ∈ dict_items (g_TOOLS g) ->
  exists rp rc,
    get_tools_by_data_type "partial" g = (Returns rp, g)
    /\ get_tools_by_data_type "combined" g = (Returns rc, g)
    /\ ((k, e) ∈ dict_items rp \/ (k, e) ∈ dict_items rc
        <-> data_type e ∈ data_types).
Proof.
  intros Hwf Hin. do 2 eexists. rewrite !get_tools_by_data_type_run.
  split; [reflexivity|]. split; [reflexivity|].
  rewrite !tools_by_data_type_elem by done.
  unfold data_types. rewrite !elem_of_cons, elem_of_nil. tauto.
Qed.
End QueriesOnAnyCatalog.

(** ** Running the overview printer *)

Lemma add_stdout_nil w : add_stdout [] w = w.
Proof. destruct w. unfold add_stdout. simpl. by rewrite app_nil_r. Qed.

Lemma add_stdout_add p1 p2 w :
  add_stdout p2 (add_stdout p1 w) = add_stdout (p1 ++ p2) w.
Proof. unfold add_stdout. simpl. by rewrite app_assoc. Qed.

Lemma w_stdout_add_stdout printed w :
  w_stdout (add_stdout printed w) = w_stdout w ++ printed.
Proof. reflexivity. Qed.

Lemma with_parent_dir_add_stdout pd printed w :
  with_parent_dir pd (add_stdout printed w) = add_stdout printed (with_parent_dir pd w).
Proof. unfold with_parent_dir. simpl. by case_bool_decide. Qed.

Lemma with_parent_dir_globals pd w : w_globals (with_parent_dir pd w) = w_globals w.
Proof. unfold with_parent_dir. by case_bool_decide. Qed.

Lemma with_parent_dir_stdout pd w : w_stdout (with_parent_dir pd w) = w_stdout w.
Proof. unfold with_parent_dir. by case_bool_decide. Qed.

Lemma with_parent_dir_stdout_error pd w :
  w_stdout_error (with_parent_dir pd w) = w_stdout_error w.
Proof. unfold with_parent_dir. by case_bool_decide. Qed.

Lemma with_parent_dir_elem pd w : pd ∈ w_sys_path (with_parent_dir pd w).
Proof.
  unfold with_parent_dir. case_bool_decide; [done|]. simpl. apply list_elem_of_here.
Qed.

Lemma with_parent_dir_twice pd w :
  with_parent_dir pd (with_parent_dir pd w) = with_parent_dir pd w.
Proof.
  unfold with_parent_dir at 1. rewrite bool_decide_eq_true_2; [done|].
  apply with_parent_dir_elem.
Qed.

(** *** A standard output that takes everything *)

Lemma accepts_add_stdout printed w :
  stdout_accepts_all w -> stdout_accepts_all (add_stdout printed w).
Proof. intros H. exact H. Qed.

Lemma accepts_with_parent_dir pd w :
  stdout_accepts_all w -> stdout_accepts_all (with_parent_dir pd w).
Proof.
  intros H written s. rewrite with_parent_dir_stdout_error. apply H.
Qed.

Ltac accepted :=
  lazymatch goal with
  | |- stdout_accepts_all (add_stdout _ _) => apply accepts_add_stdout; accepted
  | |- stdout_accepts_all (with_parent_dir _ _) =>
      apply accepts_with_parent_dir; accepted
  | |- _ => assumption
  end.

(** *** Steps of a computation *)

Lemma io_bind_run {A B} (c : IO A) (k : A -> IO B) w :
  io_bind c k w = match c w with
                  | (Returns a, w') => k a w'
                  | (Raises e, w') => (Raises e, w')
                  end.
Proof. reflexivity. Qed.

Lemma print_through s w :
  w_stdout_error w (w_stdout w) s = None ->
  print s w = (Returns tt, add_stdout [s] w).
Proof. unfold print. by intros ->. Qed.

Lemma print_fails s e w :
  w_stdout_error w (w_stdout w) s = Some e -> print s w = (Raises e, w).
Proof. unfold print. by intros ->. Qed.

Lemma print_run s w :
  stdout_accepts_all w -> print s w = (Returns tt, add_stdout [s] w).
Proof. intros H. apply print_through, H. Qed.

Lemma io_bind_print {B} s (k : unit -> IO B) w :
  stdout_accepts_all w -> io_bind (print s) k w = k tt (add_stdout [s] w).
Proof. intros H. by rewrite io_bind_run, print_run. Qed.

Lemma io_bind_eval {A B} (o : outcome A) (k : A -> IO B) w :
  io_bind (io_eval o) k w = match o with
                            | Returns a => k a w
                            | Raises e => (Raises e, w)
                            end.
Proof. unfold io_bind, io_eval. by destruct o. Qed.

Lemma io_bind_load_TOOLS {B} (k : dict ToolInfo -> IO B) w :
  io_bind (io_py load_TOOLS) k w = k (g_TOOLS (w_globals w)) w.
Proof. unfold io_bind, io_py. simpl. by destruct w. Qed.

Lemma io_bind_load_WORKFLOWS {B} (k : dict (dict pyval) -> IO B) w :
  io_bind (io_py load_WORKFLOWS) k w = k (g_WORKFLOWS (w_globals w)) w.
Proof. unfold io_bind, io_py. simpl. by destruct w. Qed.

(** *** Computations that only print *)

Create HintDb prints.

Lemma only_prints_ret {A} (a : A) : only_prints (io_ret a).
Proof. intros w. exists []. by rewrite add_stdout_nil. Qed.

Lemma only_prints_eval {A} (o : outcome A) : only_prints (io_eval o).
Proof. intros w. exists []. by rewrite add_stdout_nil. Qed.

Lemma only_prints_print s : only_prints (print s).
Proof.
  intros w. unfold print. destruct (w_stdout_error w (w_stdout w) s).
  - exists []. by rewrite add_stdout_nil.
  - by exists [s].
Qed.

Lemma only_prints_load_TOOLS : only_prints (io_py load_TOOLS).
Proof. intros w. exists []. rewrite add_stdout_nil. by destruct w. Qed.

Lemma only_prints_load_WORKFLOWS : only_prints (io_py load_WORKFLOWS).
Proof. intros w. exists []. rewrite add_stdout_nil. by destruct w. Qed.

Lemma only_prints_bind {A B} (c : IO A) (k : A -> IO B) :
  only_prints c -> (forall a, only_prints (k a)) -> only_prints (io_bind c k).
Proof.
  intros Hc Hk w. rewrite io_bind_run.
  destruct (Hc w) as [p1 H1]. destruct (c w) as [[a|e] w1]; simpl in H1; subst w1.
  - destruct (Hk a (add_stdout p1 w)) as [p2 H2].
    exists (p1 ++ p2). by rewrite H2, add_stdout_add.
  - by exists p1.
Qed.

Lemma only_prints_for_each {X} (l : list X) (body : X -> IO unit) :
  (forall x, only_prints (body x)) -> only_prints (for_each l body).
Proof.
  intros Hbody. induction l as [|x l IH]; simpl.
  - apply only_prints_ret.
  - apply only_prints_bind; auto.
Qed.

#[local] Hint Resolve only_prints_ret only_prints_eval only_prints_print
  only_prints_load_TOOLS only_prints_load_WORKFLOWS
  only_prints_bind only_prints_for_each : prints.

Lemma only_prints_print_tool item : only_prints (print_tool item).
Proof. unfold print_tool. destruct (examples item.2); auto 10 with prints. Qed.

(** *** The text of a list of print calls *)

Lemma string_app_cons a (s t : string) : String a s +:+ t = String a (s +:+ t).
Proof. reflexivity. Qed.

Lemma string_app_nil_r (s : string) : s +:+ "" = s.
Proof. induction s as [|a s IH]; [done|]. by rewrite string_app_cons, IH. Qed.

Lemma string_app_assoc (s1 s2 s3 : string) : (s1 +:+ s2) +:+ s3 = s1 +:+ s2 +:+ s3.
Proof. induction s1 as [|a s1 IH]; [done|]. by rewrite !string_app_cons, IH. Qed.

Lemma concat_empty_cons (s : string) (l : list string) :
  String.concat "" (s :: l) = s +:+ String.concat "" l.
Proof. destruct l; cbn; [by rewrite string_app_nil_r | done]. Qed.

Lemma concat_empty_app (l1 l2 : list string) :
  String.concat "" (l1 ++ l2) = String.concat "" l1 +:+ String.concat "" l2.
Proof.
  induction l1 as [|s l1 IH]; [done|].
  by rewrite <- app_comm_cons, !concat_empty_cons, IH, string_app_assoc.
Qed.

Lemma stdout_text_app p1 p2 :
  stdout_text (p1 ++ p2) = stdout_text p1 +:+ stdout_text p2.
Proof. unfold stdout_text. by rewrite fmap_app, concat_empty_app. Qed.

Lemma stdout_text_prefix p1 p2 :
  p1 `prefix_of` p2 -> exists rest, stdout_text p2 = stdout_text p1 +:+ rest.
Proof. intros [k ->]. exists (stdout_text k). apply stdout_text_app. Qed.

Section PrintToolOverviewFacts.
Variable str_of_list : list string -> string.
Variable chars_of : string -> list string.

Lemma only_prints_print_workflow item :
  only_prints (print_workflow str_of_list chars_of item).
Proof. unfold print_workflow. auto 10 with prints. Qed.

Lemma only_prints_print_data_organization d :
  only_prints (print_data_organization d).
Proof. unfold print_data_organization. auto 20 with prints. Qed.

Lemma print_tool_run item w :
  stdout_accepts_all w ->
  print_tool item w = (Returns tt, add_stdout (prints_of_tool item) w).
Proof.
  intros Hw. unfold print_tool, prints_of_tool. cbn zeta.
  rewrite !io_bind_print by accepted.
  destruct (examples item.2); cbn [io_ret];
    rewrite ?print_run by accepted; rewrite !add_stdout_add; reflexivity.
Qed.

Lemma for_each_print_tool items w :
  stdout_accepts_all w ->
  for_each items print_tool w
  = (Returns tt, add_stdout (flat_map prints_of_tool items) w).
Proof.
  revert w. induction items as [|item items IH]; intros w Hw.
  - simpl. by rewrite add_stdout_nil.
  - cbn [for_each]. rewrite io_bind_run, print_tool_run by done.
    rewrite IH by accepted. by rewrite add_stdout_add.
Qed.

Lemma load_data_org_run pd config w :
  load_data_org pd config w =
  (match config with
   | ImportFails => Returns default_data_org
   | Loaded d => Returns d
   | LoadRaises e => Raises e
   end, with_parent_dir pd w).
Proof.
  unfold load_data_org, with_parent_dir, io_bind, get_sys_path.
  destruct (bool_decide (pd ∈ w_sys_path w)); destruct config; try reflexivity.
  all: by destruct w.
Qed.

(** Whatever happens, the world after the call is the world with
    [parent_dir] on the import path and some more [print] calls gone
    through. *)
Lemma print_tool_overview_world pd config w :
  exists printed,
    (print_tool_overview str_of_list chars_of pd config w).2
    = add_stdout printed (with_parent_dir pd w).
Proof.
  unfold print_tool_overview. rewrite io_bind_run, load_data_org_run.
  assert (Hrest : forall data_org, only_prints
    (_ <~ print (str_mul "=" 70) ;;
     _ <~ print "NEUTRON REFLECTOMETRY DATA ANALYSIS TOOLS" ;;
     _ <~ print (str_mul "=" 70) ;;
     _ <~ print "" ;;
     _ <~ print "📊 AVAILABLE ANALYSIS TOOLS:" ;;
     _ <~ print (str_mul "-" 40) ;;
     tools <~ io_py load_TOOLS ;;
     _ <~ for_each (dict_items tools) print_tool ;;
     _ <~ print (nl +:+ "📋 ANALYSIS WORKFLOWS:") ;;
     _ <~ print (str_mul "-" 40) ;;
     workflows <~ io_py load_WORKFLOWS ;;
     _ <~ for_each (dict_items workflows) (print_workflow str_of_list chars_of) ;;
     _ <~ print (nl +:+ "📁 DATA ORGANIZATION:") ;;
     _ <~ print (str_mul "-" 40) ;;
     _ <~ print_data_organization data_org ;;
     _ <~ print (nl +:+ "🚀 QUICK START:") ;;
     _ <~ print (str_mul "-" 40) ;;
     _ <~ print "   1. For partial data quality: python analyzer_tools/partial_data_assessor.py 218281" ;;
     _ <~ print "   2. For reflectivity fitting: python analyzer_tools/run_fit.py 218281 cu_thf" ;;
     _ <~ print "   3. For result assessment: python analyzer_tools/result_assessor.py 218281 cu_thf" ;;
     print (nl +:+ str_mul "=" 70))).
  { intros data_org.
    repeat first
      [ apply only_prints_print_tool
      | apply only_prints_print_workflow
      | apply only_prints_print_data_organization
      | apply only_prints_print
      | apply only_prints_load_TOOLS
      | apply only_prints_load_WORKFLOWS
      | apply only_prints_for_each; intros ?
      | apply only_prints_bind; [|intros ?] ]. }
  destruct config as [|d|e].
  - apply (Hrest default_data_org).
  - apply (Hrest d).
  - exists []. by rewrite add_stdout_nil.
Qed.

(** On a standard output that takes everything, the overview goes in three
    stages: the banner and the tools, which cannot fail; the workflows; the
    data organization and the closing calls. *)
Lemma print_tool_overview_run pd config w :
  stdout_accepts_all w ->
  print_tool_overview str_of_list chars_of pd config w =
  match config with
  | LoadRaises e => (Raises e, with_parent_dir pd w)
  | _ =>
      let data_org := match config with Loaded d => d | _ => default_data_org end in
      let tools := g_TOOLS (w_globals w) in
      let workflows := g_WORKFLOWS (w_globals w) in
      match for_each (dict_items workflows) (print_workflow str_of_list chars_of)
              (add_stdout (banner_prints ++ flat_map prints_of_tool (dict_items tools)
                           ++ [nl +:+ "📋 ANALYSIS WORKFLOWS:"; str_mul "-" 40])
                 (with_parent_dir pd w)) with
      | (Raises e, w2) => (Raises e, w2)
      | (Returns _, w2) =>
          match print_data_organization data_org
                  (add_stdout [nl +:+ "📁 DATA ORGANIZATION:"; str_mul "-" 40] w2) with
          | (Raises e, w3) => (Raises e, w3)
          | (Returns _, w3) => (Returns tt, add_stdout closing_prints w3)
          end
      end
  end.
Proof.
  intros Hw. unfold print_tool_overview.
  rewrite io_bind_run, load_data_org_run.
  destruct config as [|d|e]; [| |reflexivity].
  all: cbn zeta.
  all: match goal with |- _ = match for_each _ _ ?wA with _ => _ end =>
         set (w1 := wA) end.
  all: rewrite !io_bind_print by accepted.
  all: rewrite io_bind_load_TOOLS, io_bind_run, for_each_print_tool by accepted.
  all: rewrite !io_bind_print by accepted.
  all: rewrite io_bind_load_WORKFLOWS, !add_stdout_add.
  all: cbn [w_globals add_stdout]; rewrite with_parent_dir_globals.
  all: rewrite io_bind_run.
  all: match goal with |- match for_each _ _ ?wB with _ => _ end = _ =>
         change wB with w1 end.
  all: assert (Hw2 : stdout_accepts_all (for_each (dict_items (g_WORKFLOWS (w_globals w)))
                       (print_workflow str_of_list chars_of) w1).2)
         by (destruct (only_prints_for_each (dict_items (g_WORKFLOWS (w_globals w)))
                         (print_workflow str_of_list chars_of)
                         only_prints_print_workflow w1) as [p2 ->];
             subst w1; accepted).
  all: destruct (for_each _ _ w1) as [[[]|e] w2]; [|reflexivity].
  all: cbn [snd] in Hw2.
  all: rewrite !io_bind_print by accepted.
  all: rewrite io_bind_run, !add_stdout_add.
  all: match goal with |- _ = match print_data_organization _ ?wA with _ => _ end =>
         set (w3 := wA) end.
  all: match goal with |- match print_data_organization _ ?wB with _ => _ end = _ =>
         change wB with w3 end.
  all: match goal with |- match print_data_organization ?d ?wx with _ => _ end = _ =>
         assert (Hw4 : stdout_accepts_all (print_data_organization d wx).2)
           by (destruct (only_prints_print_data_organization d wx) as [p3 ->];
               subst w3; accepted) end.
  all: destruct (print_data_organization _ w3) as [[[]|e] w4]; [|reflexivity].
  all: cbn [snd] in Hw4.
  all: rewrite !io_bind_print by accepted.
  all: rewrite print_run by accepted.
  all: rewrite !add_stdout_add; reflexivity.
Qed.

Lemma print_workflow_run item w :
  stdout_accepts_all w ->
  print_workflow str_of_list chars_of item w =
  match dict_get "name" item.2 with
  | None => (Raises (KeyError "name"), w)
  | Some wname =>
      match dict_get "description" item.2 with
      | None =>
          (Raises (KeyError "description"),
           add_stdout [nl +:+ "🔄 " +:+ format_value str_of_list wname] w)
      | Some wdescription =>
          match dict_get "tools" item.2 with
          | None =>
              (Raises (KeyError "tools"),
               add_stdout [nl +:+ "🔄 " +:+ format_value str_of_list wname;
                           "   " +:+ format_value str_of_list wdescription] w)
          | Some wtools =>
              (Returns tt,
               add_stdout [nl +:+ "🔄 " +:+ format_value str_of_list wname;
                           "   " +:+ format_value str_of_list wdescription;
                           "   Tools used: " +:+ join chars_of ", " wtools] w)
          end
      end
  end.
Proof.
  intros Hw. unfold print_workflow, dict_getitem. cbn zeta.
  rewrite io_bind_eval. destruct (dict_get "name" item.2); [|reflexivity].
  rewrite io_bind_print by accepted. rewrite io_bind_eval.
  destruct (dict_get "description" item.2); [|reflexivity].
  rewrite io_bind_print by accepted. rewrite io_bind_eval, add_stdout_add.
  destruct (dict_get "tools" item.2); [|reflexivity].
  rewrite print_run by accepted. by rewrite add_stdout_add.
Qed.

Lemma has_workflow_keys (wf : dict pyval) :
  has_keys workflow_keys wf ->
  exists wname wdescription wtools,
    dict_get "name" wf = Some wname
    /\ dict_get "description" wf = Some wdescription
    /\ dict_get "tools" wf = Some wtools.
Proof.
  unfold has_keys, workflow_keys. rewrite !Forall_cons.
  intros ([n Hn] & [d Hd] & [t Ht] & _). eauto 10.
Qed.

Lemma for_each_print_workflow_ok items w :
  stdout_accepts_all w ->
  Forall (fun item => has_keys workflow_keys item.2) items ->
  exists printed,
    length printed = 3 * length items
    /\ for_each items (print_workflow str_of_list chars_of) w
       = (Returns tt, add_stdout printed w).
Proof.
  intros Hw Hok. revert w Hw. induction Hok as [|item items Hitem _ IH]; intros w Hw.
  - exists []. simpl. by rewrite add_stdout_nil.
  - apply has_workflow_keys in Hitem as (n & d & t & Hn & Hd & Ht).
    cbn [for_each]. rewrite io_bind_run, print_workflow_run, Hn, Hd, Ht by done.
    destruct (IH (add_stdout [nl +:+ "🔄 " +:+ format_value str_of_list n;
                              "   " +:+ format_value str_of_list d;
                              "   Tools used: " +:+ join chars_of ", " t] w))
      as (printed & Hlen & Hrun); [accepted|].
    eexists. rewrite Hrun, add_stdout_add. split; [|reflexivity].
    rewrite length_app, Hlen. simpl. lia.
Qed.

Lemma print_workflow_broken item i k w :
  stdout_accepts_all w ->
  list_find (fun k => dict_get k item.2 = None) workflow_keys = Some (i, k) ->
  exists printed,
    length printed = i
    /\ print_workflow str_of_list chars_of item w
       = (Raises (KeyError k), add_stdout printed w).
Proof.
  intros Hw. rewrite print_workflow_run by done.
  unfold workflow_keys. cbn [list_find].
  destruct (dict_get "name" item.2) as [n|]; cbn.
  2: { intros [= <- <-]. exists []. by rewrite add_stdout_nil. }
  destruct (dict_get "description" item.2) as [d|]; cbn.
  2: { intros [= <- <-]. eexists; split; [|reflexivity]; reflexivity. }
  destruct (dict_get "tools" item.2) as [t|]; cbn.
  2: { intros [= <- <-]. eexists; split; [|reflexivity]; reflexivity. }
  discriminate.
Qed.

Lemma for_each_print_workflow_broken finished item rest i k w :
  stdout_accepts_all w ->
  Forall (fun item => has_keys workflow_keys item.2) finished ->
  list_find (fun k => dict_get k item.2 = None) workflow_keys = Some (i, k) ->
  exists printed,
    length printed = 3 * length finished + i
    /\ for_each (finished ++ item :: rest) (print_workflow str_of_list chars_of) w
       = (Raises (KeyError k), add_stdout printed w).
Proof.
  intros Hw Hok Hfind. revert w Hw.
  induction Hok as [|item' items Hitem _ IH]; intros w Hw.
  - destruct (print_workflow_broken item i k w Hw Hfind) as (printed & Hlen & Hrun).
    exists printed. split; [simpl; lia|].
    cbn [app for_each]. by rewrite io_bind_run, Hrun.
  - apply has_workflow_keys in Hitem as (n & d & t & Hn & Hd & Ht).
    cbn [app for_each]. rewrite io_bind_run, print_workflow_run, Hn, Hd, Ht by done.
    destruct (IH (add_stdout [nl +:+ "🔄 " +:+ format_value str_of_list n;
                              "   " +:+ format_value str_of_list d;
                              "   Tools used: " +:+ join chars_of ", " t] w))
      as (printed & Hlen & Hrun); [accepted|].
    eexists. rewrite Hrun, add_stdout_add. split; [|reflexivity].
    rewrite length_app, Hlen. simpl. lia.
Qed.

Lemma print_data_organization_run d w :
  stdout_accepts_all w ->
  print_data_organization d w =
  match dict_get "partial_data_dir" d with
  | None => (Raises (KeyError "partial_data_dir"), w)
  | Some partial_data_dir =>
  let print1 := "   • Partial data: " +:+ partial_data_dir
                +:+ "/ (REFL_<set_ID>_<part_ID>_<run_ID>_partial.txt)" in
  match dict_get "combined_data_dir" d with
  | None => (Raises (KeyError "combined_data_dir"), add_stdout [print1] w)
  | Some combined_data_dir =>
  match dict_get "combined_data_template" d with
  | None => (Raises (KeyError "combined_data_template"), add_stdout [print1] w)
  | Some combined_data_template =>
  let print2 := "   • Combined data: " +:+ combined_data_dir
                +:+ "/ (" +:+ combined_data_template +:+ ")" in
  match dict_get "models_dir" d with
  | None => (Raises (KeyError "models_dir"), add_stdout [print1; print2] w)
  | Some models_dir =>
  let print3 := "   • Models: " +:+ models_dir
                +:+ "/ (Python files with reflectivity models)" in
  match dict_get "reports_dir" d with
  | None => (Raises (KeyError "reports_dir"), add_stdout [print1; print2; print3] w)
  | Some reports_dir =>
      (Returns tt,
       add_stdout [print1; print2; print3;
                   "   • Reports: " +:+ reports_dir
                   +:+ "/ (Generated analysis reports and plots)"] w)
  end end end end end.
Proof.
  intros Hw. unfold print_data_organization, dict_getitem. cbn zeta.
  rewrite io_bind_eval. destruct (dict_get "partial_data_dir" d); [|reflexivity].
  rewrite io_bind_print by accepted. rewrite io_bind_eval.
  destruct (dict_get "combined_data_dir" d); [|reflexivity].
  rewrite io_bind_eval.
  destruct (dict_get "combined_data_template" d); [|reflexivity].
  rewrite io_bind_print by accepted. rewrite io_bind_eval, add_stdout_add.
  destruct (dict_get "models_dir" d); [|reflexivity].
  rewrite io_bind_print by accepted. rewrite io_bind_eval, add_stdout_add.
  destruct (dict_get "reports_dir" d); [|reflexivity].
  rewrite print_run by accepted. by rewrite add_stdout_add.
Qed.

Lemma print_data_organization_ok d w :
  stdout_accepts_all w ->
  has_keys data_org_keys d ->
  exists printed,
    length printed = 4
    /\ print_data_organization d w = (Returns tt, add_stdout printed w).
Proof.
  intros Hw. unfold has_keys, data_org_keys. rewrite !Forall_cons.
  intros ([v1 H1] & [v2 H2] & [v3 H3] & [v4 H4] & [v5 H5] & _).
  rewrite print_data_organization_run, H1, H2, H3, H4, H5 by done.
  eexists; split; [|reflexivity]; reflexivity.
Qed.

(** How many of the four calls went through when the key at position [i]
    of [data_org_keys] turns out to be missing. *)
Lemma print_data_organization_broken d i k w :
  stdout_accepts_all w ->
  list_find (fun k => dict_get k d = None) data_org_keys = Some (i, k) ->
  exists printed,
    length printed = match i with 0 => 0 | 1 | 2 => 1 | 3 => 2 | _ => 3 end
    /\ print_data_organization d w = (Raises (KeyError k), add_stdout printed w).
Proof.
  intros Hw. rewrite print_data_organization_run by done.
  unfold data_org_keys. cbn [list_find].
  destruct (dict_get "partial_data_dir" d); cbn.
  2: { intros [= <- <-]. exists []. by rewrite add_stdout_nil. }
  destruct (dict_get "combined_data_dir" d); cbn.
  2: { intros [= <- <-]. eexists; split; [|reflexivity]; reflexivity. }
  destruct (dict_get "combined_data_template" d); cbn.
  2: { intros [= <- <-]. eexists; split; [|reflexivity]; reflexivity. }
  destruct (dict_get "models_dir" d); cbn.
  2: { intros [= <- <-]. eexists; split; [|reflexivity]; reflexivity. }
  destruct (dict_get "reports_dir" d); cbn.
  2: { intros [= <- <-]. eexists; split; [|reflexivity]; reflexivity. }
  discriminate.
Qed.

Lemma length_prints_of_tools (items : dict ToolInfo) :
  length (flat_map prints_of_tool items)
  = sum_list_with (fun item => match examples item.2 with [] => 4 | _ => 5 end) items.
Proof.
  induction items as [|item items IH]; [done|].
  cbn [flat_map sum_list_with]. rewrite length_app, IH. f_equal.
  unfold prints_of_tool. by destruct (examples item.2).
Qed.

Lemma default_data_org_has_keys : has_keys data_org_keys default_data_org.
Proof. unfold has_keys. compute_done. Qed.

(** X9. Whatever the configuration and however the call ends,
    [print_tool_overview] leaves the two catalogs as they were and only
    adds to what has been printed. *)
Theorem print_tool_overview_only_prints pd config w :
  w_globals (print_tool_overview str_of_list chars_of pd config w).2 = w_globals w
  /\ w_stdout w `prefix_of` w_stdout (print_tool_overview str_of_list chars_of pd config w).2.
Proof.
  destruct (print_tool_overview_world pd config w) as [printed ->].
  cbn [add_stdout w_globals w_stdout].
  rewrite with_parent_dir_globals, with_parent_dir_stdout.
  split; [done | by apply prefix_app_r].
Qed.

(** X10. [print_tool_overview] puts [parent_dir] at the front of
    [sys.path] when it is not on it, and leaves [sys.path] alone when it
    is; so a second call does not change [sys.path] again. This holds
    however the calls end. *)
Theorem print_tool_overview_sys_path pd config config' w :
  w_sys_path (print_tool_overview str_of_list chars_of pd config w).2
  = (if bool_decide (pd ∈ w_sys_path w) then w_sys_path w else pd :: w_sys_path w)
  /\ w_sys_path (print_tool_overview str_of_list chars_of pd config'
                   (print_tool_overview str_of_list chars_of pd config w).2).2
     = w_sys_path (print_tool_overview str_of_list chars_of pd config w).2.
Proof.
  destruct (print_tool_overview_world pd config w) as [printed ->].
  destruct (print_tool_overview_world pd config'
              (add_stdout printed (with_parent_dir pd w))) as [printed' ->].
  rewrite with_parent_dir_add_stdout, with_parent_dir_twice.
  cbn [add_stdout w_sys_path]. split; [|done].
  unfold with_parent_dir. by case_bool_decide.
Qed.

(** X11. On a standard output on which no [print] fails, when every
    workflow has the keys ["name"], ["description"] and ["tools"], and the
    configuration either cannot be imported or gives a mapping with the five
    directory keys, [print_tool_overview] returns normally, and the [print]
    calls it made are, in order: the six of the banner, those of every tool
    in the catalog's order, the two of the workflows heading, three for each
    workflow, the two of the data heading, four on the directories, and the
    six closing ones. *)
Theorem print_tool_overview_succeeds pd config w :
  stdout_accepts_all w ->
  Forall (fun item => has_keys workflow_keys item.2)
         (dict_items (g_WORKFLOWS (w_globals w))) ->
  usable_config config ->
  exists workflow_prints data_prints,
    length workflow_prints = 3 * length (dict_items (g_WORKFLOWS (w_globals w)))
    /\ length data_prints = 4
    /\ (print_tool_overview str_of_list chars_of pd config w).1 = Returns tt
    /\ w_stdout (print_tool_overview str_of_list chars_of pd config w).2
       = w_stdout w ++ banner_prints
         ++ flat_map prints_of_tool (dict_items (g_TOOLS (w_globals w)))
         ++ [nl +:+ "📋 ANALYSIS WORKFLOWS:"; str_mul "-" 40]
         ++ workflow_prints
         ++ [nl +:+ "📁 DATA ORGANIZATION:"; str_mul "-" 40]
         ++ data_prints
         ++ closing_prints.
Proof.
  intros Hw Hwf Hconfig. rewrite print_tool_overview_run by done.
  assert (Hkeys : has_keys data_org_keys
                    match config with Loaded d => d | _ => default_data_org end).
  { destruct config; [apply default_data_org_has_keys | done | done]. }
  destruct config as [|d|e]; [| |done].
  all: cbn zeta.
  all: match goal with |- context [for_each ?l ?b ?w1] =>
         destruct (for_each_print_workflow_ok l w1 ltac:(accepted) Hwf)
           as (p2 & Hlen2 & ->) end.
  all: match goal with |- context [print_data_organization ?d ?w3] =>
         destruct (print_data_organization_ok d w3 ltac:(accepted) Hkeys)
           as (p3 & Hlen3 & ->) end.
  all: exists p2, p3; split_and!; [done | done | reflexivity |].
  all: cbn [snd]; rewrite !w_stdout_add_stdout, with_parent_dir_stdout.
  all: by rewrite <- !app_assoc.
Qed.

(** X12. On a standard output on which no [print] fails, and unless loading
    the configuration raises, the [print] calls of [print_tool_overview]
    begin with the six of the banner and then those of every tool of the
    catalog, in the catalog's order, whatever happens later in the call; so
    the text written begins with the text of these. Of a tool's examples
    only the first is printed, and a tool without examples is no error. *)
Theorem print_tool_overview_lists_tools_first pd config w :
  stdout_accepts_all w ->
  (forall e, config <> LoadRaises e) ->
  (w_stdout w ++ banner_prints
   ++ flat_map prints_of_tool (dict_items (g_TOOLS (w_globals w))))
  `prefix_of` w_stdout (print_tool_overview str_of_list chars_of pd config w).2
  /\ exists rest,
       stdout_text (w_stdout (print_tool_overview str_of_list chars_of pd config w).2)
       = stdout_text (w_stdout w) +:+ stdout_text banner_prints
         +:+ stdout_text (flat_map prints_of_tool (dict_items (g_TOOLS (w_globals w))))
         +:+ rest.
Proof.
  intros Hw Hload.
  assert (Hprefix :
    (w_stdout w ++ banner_prints
     ++ flat_map prints_of_tool (dict_items (g_TOOLS (w_globals w))))
    `prefix_of` w_stdout (print_tool_overview str_of_list chars_of pd config w).2).
  { rewrite print_tool_overview_run by done.
    destruct config as [|d|e]; [| |by destruct (Hload e)].
    all: cbn zeta.
    all: match goal with |- context [for_each ?l ?b ?w1] =>
           destruct (only_prints_for_each l b only_prints_print_workflow w1) as [p2 H2];
           destruct (for_each l b w1) as [[[]|e] w2]; cbn [snd] in H2; subst w2 end.
    all: try match goal with |- context [print_data_organization ?d ?w3] =>
           destruct (only_prints_print_data_organization d w3) as [p3 H3];
           destruct (print_data_organization d w3) as [[[]|e] w4];
           cbn [snd] in H3; subst w4 end.
    all: cbn [snd]; rewrite !w_stdout_add_stdout, with_parent_dir_stdout.
    all: rewrite <- !app_assoc.
    all: apply prefix_app, (prefix_app banner_prints), prefix_app_r; done. }
  split; [exact Hprefix|].
  destruct (stdout_text_prefix _ _ Hprefix) as [rest Hrest].
  exists rest. by rewrite Hrest, !stdout_text_app, !string_app_assoc.
Qed.

(** X13. The workflow fields are read by subscript. On a standard output on
    which no [print] fails, and unless loading the configuration raises, at
    the first workflow that lacks one of ["name"], ["description"],
    ["tools"] the call raises [KeyError] for the first key that workflow
    lacks. The [print] calls made by then are the six of the banner, those
    of the tools, the two of the workflows heading, three for each workflow
    before this one, and as many for this workflow as it has keys before
    the missing one. *)
Theorem print_tool_overview_broken_workflow pd config w finished item rest i k :
  stdout_accepts_all w ->
  (forall e, config <> LoadRaises e) ->
  dict_items (g_WORKFLOWS (w_globals w)) = finished ++ item :: rest ->
  Forall (fun item => has_keys workflow_keys item.2) finished ->
  list_find (fun k => dict_get k item.2 = None) workflow_keys = Some (i, k) ->
  exists workflow_prints,
    length workflow_prints = 3 * length finished + i
    /\ (print_tool_overview str_of_list chars_of pd config w).1 = Raises (KeyError k)
    /\ w_stdout (print_tool_overview str_of_list chars_of pd config w).2
       = w_stdout w ++ banner_prints
         ++ flat_map prints_of_tool (dict_items (g_TOOLS (w_globals w)))
         ++ [nl +:+ "📋 ANALYSIS WORKFLOWS:"; str_mul "-" 40]
         ++ workflow_prints.
Proof.
  intros Hw Hload Hitems Hok Hfind. rewrite print_tool_overview_run by done.
  destruct config as [|d|e]; [| |by destruct (Hload e)].
  all: cbn zeta; rewrite Hitems.
  all: match goal with |- context [for_each _ _ ?w1] =>
         destruct (for_each_print_workflow_broken finished item rest i k w1
                     ltac:(accepted) Hok Hfind) as (p2 & Hlen2 & ->) end.
  all: exists p2; split_and!; [done | reflexivity |].
  all: cbn [snd]; rewrite !w_stdout_add_stdout, with_parent_dir_stdout.
  all: by rewrite <- !app_assoc.
Qed.

(** X14. On a standard output on which no [print] fails, when every
    workflow has its three keys, a loaded configuration that lacks one of
    the five directory keys makes the call raise [KeyError] for the first
    missing key, in the order in which the keys are read. The [print] calls
    made by then are those of the banner, the tools, the workflows and the
    data heading, and those of the four on the directories that come before
    the missing key; none of the six closing calls is made. *)
Theorem print_tool_overview_incomplete_config pd data_org w i k :
  stdout_accepts_all w ->
  Forall (fun item => has_keys workflow_keys item.2)
         (dict_items (g_WORKFLOWS (w_globals w))) ->
  list_find (fun k => dict_get k data_org = None) data_org_keys = Some (i, k) ->
  exists workflow_prints data_prints,
    length workflow_prints = 3 * length (dict_items (g_WORKFLOWS (w_globals w)))
    /\ length data_prints = match i with 0 => 0 | 1 | 2 => 1 | 3 => 2 | _ => 3 end
    /\ (print_tool_overview str_of_list chars_of pd (Loaded data_org) w).1
       = Raises (KeyError k)
    /\ w_stdout (print_tool_overview str_of_list chars_of pd (Loaded data_org) w).2
       = w_stdout w ++ banner_prints
         ++ flat_map prints_of_tool (dict_items (g_TOOLS (w_globals w)))
         ++ [nl +:+ "📋 ANALYSIS WORKFLOWS:"; str_mul "-" 40]
         ++ workflow_prints
         ++ [nl +:+ "📁 DATA ORGANIZATION:"; str_mul "-" 40]
         ++ data_prints.
Proof.
  intros Hw Hwf Hfind. rewrite print_tool_overview_run by done. cbn zeta.
  match goal with |- context [for_each ?l ?b ?w1] =>
    destruct (for_each_print_workflow_ok l w1 ltac:(accepted) Hwf)
      as (p2 & Hlen2 & ->) end.
  match goal with |- context [print_data_organization ?d ?w3] =>
    destruct (print_data_organization_broken d i k w3 ltac:(accepted) Hfind)
      as (p3 & Hlen3 & ->) end.
  exists p2, p3; split_and!; [done | done | reflexivity |].
  cbn [snd]; rewrite !w_stdout_add_stdout, with_parent_dir_stdout.
  by rewrite <- !app_assoc.
Qed.

(** X15. Only [ImportError] is caught: any other exception from loading
    the configuration leaves [print_tool_overview] before anything is
    printed, with [parent_dir] already on [sys.path]. *)
Theorem print_tool_overview_other_exception pd e w :
  (print_tool_overview str_of_list chars_of pd (LoadRaises e) w).1 = Raises e
  /\ w_stdout (print_tool_overview str_of_list chars_of pd (LoadRaises e) w).2 = w_stdout w
  /\ w_globals (print_tool_overview str_of_list chars_of pd (LoadRaises e) w).2 = w_globals w
  /\ pd ∈ w_sys_path (print_tool_overview str_of_list chars_of pd (LoadRaises e) w).2.
Proof.
  unfold print_tool_overview. rewrite io_bind_run, load_data_org_run. cbn [fst snd].
  rewrite with_parent_dir_stdout, with_parent_dir_globals.
  split_and!; try done. apply with_parent_dir_elem.
Qed.

(** X16. [print] can fail. When standard output takes the first four
    strings of the banner but raises on the fifth, the title with its
    emoji, as a stream with an encoding such as ASCII does, then, unless
    loading the configuration raises, [print_tool_overview] ends with that
    exception after four [print] calls, whatever the catalogs hold. *)
Theorem print_tool_overview_encoding_error pd config e w :
  (forall e', config <> LoadRaises e') ->
  (forall written s,
     s ∈ [str_mul "=" 70; "NEUTRON REFLECTOMETRY DATA ANALYSIS TOOLS"; ""] ->
     w_stdout_error w written s = None) ->
  (forall written, w_stdout_error w written "📊 AVAILABLE ANALYSIS TOOLS:" = Some e) ->
  (print_tool_overview str_of_list chars_of pd config w).1 = Raises e
  /\ w_stdout (print_tool_overview str_of_list chars_of pd config w).2
     = w_stdout w ++ [ str_mul "=" 70;
                       "NEUTRON REFLECTOMETRY DATA ANALYSIS TOOLS";
                       str_mul "=" 70;
                       "" ].
Proof.
  intros Hload Htakes Hfails. unfold print_tool_overview.
  rewrite io_bind_run, load_data_org_run.
  assert (Hthrough : forall printed s,
    s ∈ [str_mul "=" 70; "NEUTRON REFLECTOMETRY DATA ANALYSIS TOOLS"; ""] ->
    print s (add_stdout printed (with_parent_dir pd w))
    = (Returns tt, add_stdout (printed ++ [s]) (with_parent_dir pd w))).
  { intros printed s Hs. rewrite print_through, add_stdout_add; [done|].
    cbn [add_stdout w_stdout_error]. rewrite with_parent_dir_stdout_error.
    by apply Htakes. }
  assert (Hstop : forall printed,
    print "📊 AVAILABLE ANALYSIS TOOLS:" (add_stdout printed (with_parent_dir pd w))
    = (Raises e, add_stdout printed (with_parent_dir pd w))).
  { intros printed. apply print_fails.
    cbn [add_stdout w_stdout_error]. rewrite with_parent_dir_stdout_error.
    apply Hfails. }
  destruct config as [|d|e']; [| |by destruct (Hload e')].
  all: rewrite <- (add_stdout_nil (with_parent_dir pd w)).
  all: rewrite io_bind_run, Hthrough by (rewrite !elem_of_cons; auto).
  all: rewrite io_bind_run, Hthrough by (rewrite !elem_of_cons; auto).
  all: rewrite io_bind_run, Hthrough by (rewrite !elem_of_cons; auto).
  all: rewrite io_bind_run, Hthrough by (rewrite !elem_of_cons; auto).
  all: rewrite io_bind_run, Hstop.
  all: cbn [fst snd]; rewrite w_stdout_add_stdout, with_parent_dir_stdout.
  all: by split.
Qed.

End PrintToolOverviewFacts.

(** *** Instances *)

Lemma get_tool_agrees_with_get_all_tools_witness :
  dict_wf (g_TOOLS module_globals)
  /\ (result_of (get_tool "run_fit") module_globals = Returns (Some run_fit_info)
      <-> exists d, result_of get_all_tools module_globals = Returns d
                    /\ ("run_fit", run_fit_info) ∈ dict_items d).
Proof.
  assert (H : dict_wf (g_TOOLS module_globals)).
  { unfold dict_wf. apply (bool_decide_unpack _). vm_compute. exact I. }
  split; [exact H|].
  exact (get_tool_agrees_with_get_all_tools module_globals "run_fit" run_fit_info H).
Defined.

Lemma filtered_catalog_members_witness :
  exists r,
    get_tools_by_data_type "xyz" module_globals = (Returns r, module_globals)
    /\ (("run_fit", run_fit_info) ∈ dict_items r
        <-> ("run_fit", run_fit_info) ∈ dict_items (g_TOOLS module_globals)
            /\ (data_type run_fit_info = "xyz" \/ data_type run_fit_info = "both")).
Proof.
  apply (filtered_catalog_members module_globals "xyz" "run_fit" run_fit_info).
  unfold dict_wf. apply (bool_decide_unpack _). vm_compute. exact I.
Defined.

Lemma filtered_catalog_lookup_witness :
  exists r,
    get_tools_by_data_type "partial" module_globals = (Returns r, module_globals)
    /\ dict_wf r
    /\ dict_len r <= dict_len (g_TOOLS module_globals)
    /\ dict_get "run_fit" r
       = match dict_get "run_fit" (g_TOOLS module_globals) with
         | Some e => if works_with "partial" e then Some e else None
         | None => None
         end.
Proof.
  apply (filtered_catalog_lookup module_globals "partial" "run_fit").
  unfold dict_wf. apply (bool_decide_unpack _). vm_compute. exact I.
Defined.

Lemma two_categories_share_both_witness :
  exists r1 r2,
    get_tools_by_data_type "partial" module_globals = (Returns r1, module_globals)
    /\ get_tools_by_data_type "combined" module_globals = (Returns r2, module_globals)
    /\ (("create_temporary_model", create_temporary_model_info) ∈ dict_items r1
        /\ ("create_temporary_model", create_temporary_model_info) ∈ dict_items r2
        <-> ("create_temporary_model", create_temporary_model_info)
              ∈ dict_items (g_TOOLS module_globals)
            /\ data_type create_temporary_model_info = "both").
Proof.
  apply (two_categories_share_both module_globals "partial" "combined"
           "create_temporary_model" create_temporary_model_info).
  - unfold dict_wf. apply (bool_decide_unpack _). vm_compute. exact I.
  - discriminate.
Defined.

Lemma both_tools_in_every_result_witness :
  exists rb rc,
    get_tools_by_data_type "both" module_globals = (Returns rb, module_globals)
    /\ get_tools_by_data_type "combined" module_globals = (Returns rc, module_globals)
    /\ dict_items rb `sublist_of` dict_items rc.
Proof.
  apply (both_tools_in_every_result module_globals "combined").
  unfold dict_wf. apply (bool_decide_unpack _). vm_compute. exact I.
Defined.

Lemma specific_categories_cover_the_tags_witness :
  exists rp rc,
    get_tools_by_data_type "partial" module_globals = (Returns rp, module_globals)
    /\ get_tools_by_data_type "combined" module_globals = (Returns rc, module_globals)
    /\ (("run_fit", run_fit_info) ∈ dict_items rp
        \/ ("run_fit", run_fit_info) ∈ dict_items rc
        <-> data_type run_fit_info ∈ data_types).
Proof.
  apply (specific_categories_cover_the_tags module_globals "run_fit" run_fit_info).
  - unfold dict_wf. apply (bool_decide_unpack _). vm_compute. exact I.
  - apply dict_get_Some_elem. reflexivity.
Defined.

Lemma filtering_twice_changes_nothing_witness :
  exists r,
    get_tools_by_data_type "combined" module_globals = (Returns r, module_globals)
    /\ get_tools_by_data_type "combined" (rebind_TOOLS r module_globals)
       = (Returns r, rebind_TOOLS r module_globals).
Proof.
  apply (filtering_twice_changes_nothing module_globals "combined").
  unfold dict_wf. apply (bool_decide_unpack _). vm_compute. exact I.
Defined.

Lemma default_data_type_matches_every_argument_witness :
  exists r,
    get_tools_by_data_type "partial"
      (rebind_TOOLS (dict_literal [("plotter", ToolInfo_init "Plotter" "m" "d" "u" [] None)])
         module_globals)
    = (Returns r,
       rebind_TOOLS (dict_literal [("plotter", ToolInfo_init "Plotter" "m" "d" "u" [] None)])
         module_globals)
    /\ ("plotter", ToolInfo_init "Plotter" "m" "d" "u" [] None) ∈ dict_items r.
Proof.
  apply (default_data_type_matches_every_argument
           (rebind_TOOLS (dict_literal [("plotter", ToolInfo_init "Plotter" "m" "d" "u" [] None)])
              module_globals)
           "partial" "plotter" "Plotter" "m" "d" "u" [] ).
  - unfold dict_wf. apply (bool_decide_unpack _). vm_compute. exact I.
  - apply dict_get_Some_elem. reflexivity.
Defined.

Lemma print_tool_overview_succeeds_witness :
  exists workflow_prints data_prints,
    length workflow_prints
    = 3 * length (dict_items (g_WORKFLOWS (w_globals (fresh_world ["/usr/lib/python3"] utf8_stdout))))
    /\ length data_prints = 4
    /\ (print_tool_overview (fun _ => "") (fun _ => []) "/repo" ImportFails
          (fresh_world ["/usr/lib/python3"] utf8_stdout)).1 = Returns tt
    /\ w_stdout (print_tool_overview (fun _ => "") (fun _ => []) "/repo" ImportFails
                   (fresh_world ["/usr/lib/python3"] utf8_stdout)).2
       = w_stdout (fresh_world ["/usr/lib/python3"] utf8_stdout) ++ banner_prints
         ++ flat_map prints_of_tool
              (dict_items (g_TOOLS (w_globals (fresh_world ["/usr/lib/python3"] utf8_stdout))))
         ++ [nl +:+ "📋 ANALYSIS WORKFLOWS:"; str_mul "-" 40]
         ++ workflow_prints
         ++ [nl +:+ "📁 DATA ORGANIZATION:"; str_mul "-" 40]
         ++ data_prints
         ++ closing_prints.
Proof.
  apply (print_tool_overview_succeeds (fun _ => "") (fun _ => []) "/repo" ImportFails
           (fresh_world ["/usr/lib/python3"] utf8_stdout)).
  - intros written s. reflexivity.
  - vm_compute. repeat econstructor.
  - exact I.
Defined.

Lemma print_tool_overview_lists_tools_first_witness :
  (w_stdout (fresh_world [] utf8_stdout) ++ banner_prints
   ++ flat_map prints_of_tool (dict_items (g_TOOLS (w_globals (fresh_world [] utf8_stdout)))))
  `prefix_of`
  w_stdout (print_tool_overview (fun _ => "") (fun _ => []) "/repo" ImportFails
              (fresh_world [] utf8_stdout)).2.
Proof.
  apply (print_tool_overview_lists_tools_first (fun _ => "") (fun _ => []) "/repo"
           ImportFails (fresh_world [] utf8_stdout)).
  - intros written s. reflexivity.
  - intros e. discriminate.
Defined.

Lemma print_tool_overview_broken_workflow_witness :
  exists workflow_prints,
    length workflow_prints = 3 * length [("standard_fitting", standard_fitting_workflow)] + 1
    /\ (print_tool_overview (fun _ => "") (fun _ => []) "/repo" ImportFails
          {| w_globals :=
               {| g_TOOLS := TOOLS;
                  g_WORKFLOWS :=
                    dict_literal [ ("standard_fitting", standard_fitting_workflow);
                                   ("draft", dict_literal [("name", PStr "Draft")]) ] |};
             w_sys_path := [];
             w_stdout := [];
             w_stdout_error := utf8_stdout |}).1
       = Raises (KeyError "description")
    /\ w_stdout
         (print_tool_overview (fun _ => "") (fun _ => []) "/repo" ImportFails
            {| w_globals :=
                 {| g_TOOLS := TOOLS;
                    g_WORKFLOWS :=
                      dict_literal [ ("standard_fitting", standard_fitting_workflow);
                                     ("draft", dict_literal [("name", PStr "Draft")]) ] |};
               w_sys_path := [];
               w_stdout := [];
               w_stdout_error := utf8_stdout |}).2
       = [] ++ banner_prints
         ++ flat_map prints_of_tool (dict_items TOOLS)
         ++ [nl +:+ "📋 ANALYSIS WORKFLOWS:"; str_mul "-" 40]
         ++ workflow_prints.
Proof.
  apply (print_tool_overview_broken_workflow (fun _ => "") (fun _ => []) "/repo" ImportFails
           {| w_globals :=
                {| g_TOOLS := TOOLS;
                   g_WORKFLOWS :=
                     dict_literal [ ("standard_fitting", standard_fitting_workflow);
                                    ("draft", dict_literal [("name", PStr "Draft")]) ] |};
              w_sys_path := [];
              w_stdout := [];
              w_stdout_error := utf8_stdout |}
           [("standard_fitting", standard_fitting_workflow)]
           ("draft", dict_literal [("name", PStr "Draft")]) [] 1 "description").
  - intros written s. reflexivity.
  - intros e. discriminate.
  - reflexivity.
  - vm_compute. repeat econstructor.
  - reflexivity.
Defined.

Lemma print_tool_overview_incomplete_config_witness :
  exists workflow_prints data_prints,
    length workflow_prints
    = 3 * length (dict_items (g_WORKFLOWS (w_globals (fresh_world [] utf8_stdout))))
    /\ length data_prints = 1
    /\ (print_tool_overview (fun _ => "") (fun _ => []) "/repo"
          (Loaded (dict_literal [("partial_data_dir", "data/partial")]))
          (fresh_world [] utf8_stdout)).1
       = Raises (KeyError "combined_data_dir")
    /\ w_stdout
         (print_tool_overview (fun _ => "") (fun _ => []) "/repo"
            (Loaded (dict_literal [("partial_data_dir", "data/partial")]))
            (fresh_world [] utf8_stdout)).2
       = w_stdout (fresh_world [] utf8_stdout) ++ banner_prints
         ++ flat_map prints_of_tool
              (dict_items (g_TOOLS (w_globals (fresh_world [] utf8_stdout))))
         ++ [nl +:+ "📋 ANALYSIS WORKFLOWS:"; str_mul "-" 40]
         ++ workflow_prints
         ++ [nl +:+ "📁 DATA ORGANIZATION:"; str_mul "-" 40]
         ++ data_prints.
Proof.
  apply (print_tool_overview_incomplete_config (fun _ => "") (fun _ => []) "/repo"
           (dict_literal [("partial_data_dir", "data/partial")])
           (fresh_world [] utf8_stdout) 1 "combined_data_dir").
  - intros written s. reflexivity.
  - vm_compute. repeat econstructor.
  - reflexivity.
Defined.

Lemma print_tool_overview_encoding_error_witness :
  (print_tool_overview (fun _ => "") (fun _ => []) "/repo" ImportFails
     (fresh_world [] ascii_stdout)).1
  = Raises (UnicodeEncodeError "📊 AVAILABLE ANALYSIS TOOLS:")
  /\ w_stdout (print_tool_overview (fun _ => "") (fun _ => []) "/repo" ImportFails
                 (fresh_world [] ascii_stdout)).2
     = w_stdout (fresh_world [] ascii_stdout)
       ++ [ str_mul "=" 70;
            "NEUTRON REFLECTOMETRY DATA ANALYSIS TOOLS";
            str_mul "=" 70;
            "" ].
Proof.
  apply (print_tool_overview_encoding_error (fun _ => "") (fun _ => []) "/repo"
           ImportFails (UnicodeEncodeError "📊 AVAILABLE ANALYSIS TOOLS:")
           (fresh_world [] ascii_stdout)).
  - intros e. discriminate.
  - intros written s Hs. rewrite !elem_of_cons, elem_of_nil in Hs.
    destruct Hs as [->|[->|[->|[]]]]; vm_compute; reflexivity.
  - intros written. vm_compute. reflexivity.
Defined.

(** *** The static overview *)

(** From the module's own catalogs, with the default data organization and
    a standard output that takes everything, the overview is 54 [print]
    calls, and the text they write has 66 lines: six [print] statements
    begin with a line feed, and the first of them runs once for each of the
    five tools, another once for each of the three workflows. On a standard
    output with the encoding ASCII it stops with [UnicodeEncodeError] after
    four calls. *)
Example static_overview_utf8 :
  (print_tool_overview (fun _ => "") (fun _ => []) "/repo" ImportFails
     (fresh_world [] utf8_stdout)).1 = Returns tt
  /\ length (w_stdout (print_tool_overview (fun _ => "") (fun _ => []) "/repo"
                         ImportFails (fresh_world [] utf8_stdout)).2) = 54
  /\ line_count (stdout_text
       (w_stdout (print_tool_overview (fun _ => "") (fun _ => []) "/repo"
                    ImportFails (fresh_world [] utf8_stdout)).2)) = 66.
Proof. split_and!; vm_compute; reflexivity. Qed.

Example static_overview_ascii :
  (print_tool_overview (fun _ => "") (fun _ => []) "/repo" ImportFails
     (fresh_world [] ascii_stdout)).1
  = Raises (UnicodeEncodeError "📊 AVAILABLE ANALYSIS TOOLS:")
  /\ length (w_stdout (print_tool_overview (fun _ => "") (fun _ => []) "/repo"
                         ImportFails (fresh_world [] ascii_stdout)).2) = 4.
Proof. split_and!; vm_compute; reflexivity. Qed.

(** Asking the module for its own special names does not raise when the
    interpreter has set them. *)
Example module_getattr_special :
  module_getattr (fun attr => bool_decide (attr ∈ ["__name__"; "__doc__"; "__file__"]))
    "__name__" = Returns Special
  /\ module_getattr (fun attr => bool_decide (attr ∈ ["__name__"; "__doc__"; "__file__"]))
       "get_tool" = Returns Function.
Proof. split; reflexivity. Qed.
